(** * The project store and the burndown engine

    A shallow embedding of the two pieces of logic of the Scrum
    application: the client-side project/sprint/task store
    ([ProjectProvider], the data context) and the burndown derivation
    ([generateBurndownData], the chart component).

    Modelling conventions.
    - A calendar date (["2024-01-03"], possibly followed by a time of day) is
      a day number in [Z]; [parseISO], [toISOString().split('T')[0]] and
      [completionDate.split('T')[0]] are then the identity, [addDays d i] is
      [d + i] and [differenceInDays a b] is [a - b].
    - A JavaScript [number] holding story points is an exact rational [Q];
      [Math.round x] is [Qfloor (x + 1/2)] (ties go up, as in JavaScript).
    - An optional or nullable field is an [option]; a JavaScript object used
      as a dictionary is a [gmap string _].
    - React state is a [Store]; a functional update [setX(prev => ...)] acts
      on the current store, while a read of [sprints], [tasks],
      [lastFetchTime] ... inside a handler sees the store of the render that
      created the handler (the snapshot [snap]).
    - The remote gateway, the clock and the retry wrapper are outside the
      program: every awaited call asks an oracle, indexed by the number of
      calls made so far, for its reply. *)

From Stdlib Require Import ZArith QArith Qround Qminmax Lqa Lia.
From stdpp Require Import gmap strings list fin_maps.

(** ** Domain records *)

Module Owner.
Record t := mk { username : option string; email : option string }.
End Owner.

Module Project.
Record t := mk {
  id : string;
  title : string;
  description : string;
  endGoal : option string;
  createdAt : string;
  updatedAt : string;
  ownerId : option string;
  ownerName : option string;
  ownerEmail : option string;
  isCollaboration : bool;
  role : option string }.
End Project.

Module Sprint.
Record t := mk {
  id : string;
  title : string;
  description : string;
  projectId : string;
  startDate : Z;
  endDate : Z;
  status : string }.
End Sprint.

Module Task.
Record t := mk {
  id : string;
  title : string;
  description : option string;
  sprintId : string;
  status : string;
  assignedTo : option string;
  storyPoints : option Q;
  priority : option string;
  createdAt : string;
  updatedAt : string;
  projectId : option string;
  completionDate : option Z }.
End Task.

Module BurndownData.
(** The series kept by the store ([BurndownData] of the context). *)
Record t := mk { date : Z; ideal : Z; actual : Z }.
End BurndownData.

Module BurndownDataPoint.
(** The points of the chart; [actual] is [number | null]. *)
Record t := mk {
  date : Z;
  ideal : Z;
  actual : option Z;
  formattedDate : string }.
End BurndownDataPoint.

(** [Math.round] and [Math.max] on numbers. *)
Definition Math_round (x : Q) : Z := Qfloor (x + (1 # 2))%Q.
Definition Math_max (x y : Q) : Q := Qmax x y.

(** [x > 0] on numbers, as a boolean. *)
Definition Qpositive (x : Q) : bool := negb (Qle_bool x 0).

(** ** Query accessors of the store *)

Definition getSprintsByProject (sprints : list Sprint.t) (projectId : string)
  : list Sprint.t :=
  filter (λ s, Sprint.projectId s = projectId) sprints.

Definition getTasksBySprint (tasks : list Task.t) (sprintId : string)
  : list Task.t :=
  filter (λ t, Task.sprintId t = sprintId) tasks.

Definition getBacklogTasks (tasks : list Task.t) (projectId : string)
  : list Task.t :=
  filter (λ t, Task.status t = "backlog"
               ∧ Task.projectId t = Some projectId
               ∧ Task.sprintId t = "") tasks.

(** ** An insertion-ordered [Map], as JavaScript's

    [Map.set] overwrites the value of a key already present and keeps its
    position, and appends a new key at the end; [values()] lists the values
    in insertion order. *)

Module JsMap.
Section JsMap.
Context {V : Type}.

Fixpoint set (k : Z) (v : V) (m : list (Z * V)) : list (Z * V) :=
  match m with
  | [] => [(k, v)]
  | (k', v') :: m' =>
      if decide (k' = k) then (k, v) :: m' else (k', v') :: set k v m'
  end.

Definition values (m : list (Z * V)) : list V := m.*2.
Definition keys (m : list (Z * V)) : list Z := m.*1.
End JsMap.
End JsMap.

(** ** The burndown engine ([generateBurndownData]) *)

Module Burndown.
Local Open Scope Z_scope.

(** [task.storyPoints || 0] *)
Definition pointsOf (t : Task.t) : Q := default 0%Q (Task.storyPoints t).

(** [task.storyPoints !== undefined && task.storyPoints > 0] *)
Definition hasPoints (t : Task.t) : bool :=
  match Task.storyPoints t with
  | Some q => Qpositive q
  | None => false
  end.

(** [tasks.reduce((sum, task) => sum + (task.storyPoints || 0), start)] *)
Definition sumPoints (start : Q) (ts : list Task.t) : Q :=
  fold_left (λ sum t, (sum + pointsOf t)%Q) ts start.

(** The first loop: the tasks of every sprint of the project, sprint by
    sprint. *)
Definition gatherTasks (tasks : list Task.t) (projectSprints : list Sprint.t)
  : list Task.t :=
  fold_left (λ projectTasks sprint,
               projectTasks ++ getTasksBySprint tasks (Sprint.id sprint))
            projectSprints [].

(** The second loop: earliest start and latest end over the sprints
    ([isBefore a b] is [a < b], [isAfter a b] is [a > b]). *)
Definition spanStep (acc : option Z * option Z) (sprint : Sprint.t)
  : option Z * option Z :=
  let startDate := Sprint.startDate sprint in
  let endDate := Sprint.endDate sprint in
  let earliest :=
    match acc.1 with
    | None => Some startDate
    | Some e => if bool_decide (startDate < e) then Some startDate else Some e
    end in
  let latest :=
    match acc.2 with
    | None => Some endDate
    | Some l => if bool_decide (endDate > l) then Some endDate else Some l
    end in
  (earliest, latest).

Definition span (projectSprints : list Sprint.t) : option Z * option Z :=
  fold_left spanStep projectSprints (None, None).

(** [completedTasksByDate]: done tasks with a completion date, grouped by
    that date. *)
Definition groupStep (m : gmap Z (list Task.t)) (t : Task.t)
  : gmap Z (list Task.t) :=
  if bool_decide (Task.status t = "done") then
    match Task.completionDate t with
    | Some dateKey =>
        let m' := match m !! dateKey with
                  | None => <[dateKey := []]> m
                  | Some _ => m
                  end in
        match m' !! dateKey with
        | Some tasks => <[dateKey := tasks ++ [t]]> m'
        | None => m'
        end
    | None => m
    end
  else m.

Definition groupByCompletionDate (tasksWithPoints : list Task.t)
  : gmap Z (list Task.t) :=
  fold_left groupStep tasksWithPoints ∅.

(** The inner scan [for (let j = 0; j <= i; j++)]. *)
Definition completedUpTo (completedTasksByDate : gmap Z (list Task.t))
    (earliestStartDate : Z) (i : nat) : Q :=
  fold_left
    (λ completedPoints (j : nat),
       let checkDate := earliestStartDate + Z.of_nat j in
       match completedTasksByDate !! checkDate with
       | Some tasksCompletedOnDate => sumPoints completedPoints tasksCompletedOnDate
       | None => completedPoints
       end)
    (seq 0 (S i)) 0%Q.

Section Engine.
(** [format(date, "MMM dd")] of date-fns. *)
Variable format : Z → string.
(** [startOfDay(new Date())] *)
Variable today : Z.

(** One turn of the main loop: the point of day [i]. *)
Definition pointAt (totalStoryPoints pointsPerDay : Q)
    (completedTasksByDate : gmap Z (list Task.t))
    (earliestStartDate : Z) (i : nat) : BurndownDataPoint.t :=
  let date := earliestStartDate + Z.of_nat i in
  let idealRemaining :=
    Math_max 0 (totalStoryPoints - inject_Z (Z.of_nat i) * pointsPerDay)%Q in
  let actualPoints :=
    if bool_decide (date < today) || bool_decide (date = today) then
      let completedPoints := completedUpTo completedTasksByDate earliestStartDate i in
      Some (Math_max 0 (totalStoryPoints - completedPoints)%Q)
    else None in
  BurndownDataPoint.mk date (Math_round idealRemaining)
    (Math_round <$> actualPoints) (format date).

Definition generateBurndownData (sprints : list Sprint.t) (tasks : list Task.t)
    (projectId : string) : list BurndownDataPoint.t :=
  let projectSprints := getSprintsByProject sprints projectId in
  if bool_decide (length projectSprints = 0%nat) then [] else
  let projectTasks := gatherTasks tasks projectSprints in
  let tasksWithPoints := filter (λ t, hasPoints t = true) projectTasks in
  if bool_decide (length tasksWithPoints = 0%nat) then [] else
  match span projectSprints with
  | (Some earliestStartDate, Some latestEndDate) =>
      let daysInProject := (latestEndDate - earliestStartDate) + 1 in
      let timeframeDays := Z.max daysInProject 7 in
      let totalStoryPoints := sumPoints 0%Q tasksWithPoints in
      if Qeq_bool totalStoryPoints 0 then [] else
      let completedTasksByDate := groupByCompletionDate tasksWithPoints in
      let pointsPerDay := (totalStoryPoints / inject_Z timeframeDays)%Q in
      let uniqueData :=
        fold_left
          (λ uniqueData (i : nat),
             let p := pointAt totalStoryPoints pointsPerDay
                        completedTasksByDate earliestStartDate i in
             JsMap.set (BurndownDataPoint.date p) p uniqueData)
          (seq 0 (Z.to_nat timeframeDays)) [] in
      JsMap.values uniqueData
  | _ => []
  end.
End Engine.
End Burndown.


(** ** Rows of the remote gateway (snake-case side of the field mapping) *)

Module ProjectRow.
Record t := mk {
  id : string;
  title : string;
  description : option string;
  end_goal : option string;
  created_at : string;
  updated_at : string;
  owner_id : string;
  owner : option Owner.t }.
End ProjectRow.

Module SprintRow.
Record t := mk {
  id : string;
  title : string;
  description : option string;
  project_id : string;
  start_date : Z;
  end_date : Z;
  status : string }.
End SprintRow.

Module TaskRow.
Record t := mk {
  id : string;
  title : string;
  description : option string;
  sprint_id : option string;
  status : string;
  assign_to : option string;
  story_points : option Q;
  priority : option string;
  created_at : string;
  updated_at : string;
  project_id : option string;
  completion_date : option Z }.
End TaskRow.

Module CollaboratorRow.
Record t := mk { role : option string; projects : option ProjectRow.t }.
End CollaboratorRow.

(** [Partial<Omit<Task, "id">>]: a field is present or not; a present
    optional field may still hold [undefined]. *)
Module TaskPatch.
Record t := mk {
  title : option string;
  description : option (option string);
  sprintId : option string;
  status : option string;
  assignedTo : option (option string);
  storyPoints : option (option Q);
  priority : option (option string);
  createdAt : option string;
  updatedAt : option string;
  projectId : option (option string);
  completionDate : option (option Z) }.
End TaskPatch.

(** What an awaited gateway call can do: reject (the promise throws), or
    resolve to [{ data, error }]. *)
Inductive Reply (A : Type) : Type :=
  | Rejects
  | Resolves (error : bool) (data : option A).
Arguments Rejects {A}.
Arguments Resolves {A} error data.

(** The remote gateway behind the retry wrapper, as an oracle: the reply to
    a call depends on how many calls came before and on the filter sent. *)
Record Gateway := {
  select_projects : nat → string → Reply (list ProjectRow.t);
  select_sprints : nat → string → Reply (list SprintRow.t);
  select_tasks_by_sprint : nat → string → Reply (list TaskRow.t);
  select_backlog_tasks : nat → string → Reply (list TaskRow.t);
  select_collaborators : nat → string → Reply (list CollaboratorRow.t);
  select_board_columns : nat → string → Reply (list string);
  delete_board_column : nat → string → Reply unit;
  delete_tasks_by_sprint : nat → string → Reply unit;
  delete_sprint : nat → string → Reply unit;
  delete_backlog_tasks : nat → string → Reply unit;
  delete_project : nat → string → string → Reply unit;
  update_task : nat → string → TaskPatch.t → Reply unit;
  update_completion_date : nat → string → Z → Reply unit }.

(** The clock: [Date.now()], today's date and [new Date().toISOString()]. *)
Record Clock := {
  Date_now : nat → Z;
  todayDate : nat → Z;
  nowISO : nat → string }.

(** ** The state of the provider *)

Record Store := mkStore {
  projects : list Project.t;
  sprints : list Sprint.t;
  tasks : list Task.t;
  burndownData : gmap string (list BurndownData.t);
  isLoading : bool;
  lastFetchTime : gmap string Z;
  fetchErrors : gmap string bool }.

Definition emptyStore : Store := mkStore [] [] [] ∅ false ∅ ∅.

(** The state setters, applied to an updater [prev => ...]. *)
Definition setProjects (f : list Project.t → list Project.t) (st : Store) : Store :=
  mkStore (f (projects st)) (sprints st) (tasks st) (burndownData st)
          (isLoading st) (lastFetchTime st) (fetchErrors st).
Definition setSprints (f : list Sprint.t → list Sprint.t) (st : Store) : Store :=
  mkStore (projects st) (f (sprints st)) (tasks st) (burndownData st)
          (isLoading st) (lastFetchTime st) (fetchErrors st).
Definition setTasks (f : list Task.t → list Task.t) (st : Store) : Store :=
  mkStore (projects st) (sprints st) (f (tasks st)) (burndownData st)
          (isLoading st) (lastFetchTime st) (fetchErrors st).
Definition setBurndownData
    (f : gmap string (list BurndownData.t) → gmap string (list BurndownData.t))
    (st : Store) : Store :=
  mkStore (projects st) (sprints st) (tasks st) (f (burndownData st))
          (isLoading st) (lastFetchTime st) (fetchErrors st).
Definition setIsLoading (b : bool) (st : Store) : Store :=
  mkStore (projects st) (sprints st) (tasks st) (burndownData st)
          b (lastFetchTime st) (fetchErrors st).
Definition setLastFetchTime (f : gmap string Z → gmap string Z) (st : Store) : Store :=
  mkStore (projects st) (sprints st) (tasks st) (burndownData st)
          (isLoading st) (f (lastFetchTime st)) (fetchErrors st).
Definition setFetchErrors (f : gmap string bool → gmap string bool) (st : Store) : Store :=
  mkStore (projects st) (sprints st) (tasks st) (burndownData st)
          (isLoading st) (lastFetchTime st) (f (fetchErrors st)).

Inductive Toast := ToastError (msg : string) | ToastSuccess (msg : string).

(** The running application: the store, the number of awaited calls so
    far, the notifications shown, and whether the object now held as
    [lastFetchTime] is still the local [newFetchTime] of the last
    [refreshProjectData] (which deletes keys from it in place). *)
Record World := mkWorld {
  store : Store;
  tick : nat;
  toasts : list Toast;
  fetchTimeIsLocal : bool }.

(** ** Asynchronous handlers: state that survives a thrown error *)

Inductive Outcome (A : Type) : Type :=
  | Returned (a : A)
  | Raised.
Arguments Returned {A} a.
Arguments Raised {A}.

Definition Async (A : Type) : Type := World → Outcome A * World.

Global Instance Async_ret : MRet Async := λ A a w, (Returned a, w).
Global Instance Async_bind : MBind Async := λ A B f m w,
  match m w with
  | (Returned a, w') => f a w'
  | (Raised, w') => (Raised, w')
  end.

Definition throw {A} : Async A := λ w, (Raised, w).

(** [try { body } catch { handler }] *)
Definition tryCatch {A} (body handler : Async A) : Async A := λ w,
  match body w with
  | (Returned a, w') => (Returned a, w')
  | (Raised, w') => handler w'
  end.

(** [try { body } catch { handler } finally { fin }] with a handler that
    is itself a plain block. *)
Definition tryCatchFinally (body handler fin : Async unit) : Async unit := λ w,
  match tryCatch body handler w with
  | (Returned _, w') => fin w'
  | (Raised, w') =>
      match fin w' with
      | (_, w'') => (Raised, w'')
      end
  end.

(** [for (const x of xs) { await body(x) }] *)
Fixpoint forEach {A} (xs : list A) (body : A → Async unit) : Async unit :=
  match xs with
  | [] => mret tt
  | x :: xs' => body x ;; forEach xs' body
  end.

Definition getWorld : Async World := λ w, (Returned w, w).

(** A state setter called with an updater. *)
Definition update (f : Store → Store) : Async unit := λ w,
  (Returned tt, mkWorld (f (store w)) (tick w) (toasts w) (fetchTimeIsLocal w)).

Definition toast (t : Toast) : Async unit := λ w,
  (Returned tt, mkWorld (store w) (tick w) (toasts w ++ [t]) (fetchTimeIsLocal w)).

Definition setFetchTimeIsLocal (b : bool) : Async unit := λ w,
  (Returned tt, mkWorld (store w) (tick w) (toasts w) b).

(** [await call]: one step of the oracle. *)
Definition await {A} (call : nat → Reply A) : Async (bool * option A) := λ w,
  let w' := mkWorld (store w) (S (tick w)) (toasts w) (fetchTimeIsLocal w) in
  match call (tick w) with
  | Rejects => (Raised, w')
  | Resolves error data => (Returned (error, data), w')
  end.

(** [await delay(ms)] *)
Definition delay (ms : Z) : Async unit := λ w,
  (Returned tt, mkWorld (store w) (S (tick w)) (toasts w) (fetchTimeIsLocal w)).

(** JavaScript truthiness of a string and of an optional string. *)
Definition truthy (s : string) : bool := bool_decide (s ≠ "").
Definition truthyOpt (s : option string) : bool :=
  match s with Some s => truthy s | None => false end.

(** ** The freshness bookkeeping *)

(** [shouldRefetch(key, maxAge = 60000)], with [Date.now()] as [now]. *)
Definition shouldRefetch (now : Z) (lastFetchTime : gmap string Z)
    (key : string) (maxAge : Z) : bool :=
  let lastFetch := default 0%Z (lastFetchTime !! key) in
  bool_decide (now - lastFetch > maxAge)%Z.

Definition defaultMaxAge : Z := 60000.

(** [fetchErrors[key]] read as a condition. *)
Definition errored (fetchErrors : gmap string bool) (key : string) : bool :=
  default false (fetchErrors !! key).

(** [updateFetchTime(key)] on the store, [Date.now()] being [now]. *)
Definition updateFetchTimeAt (now : Z) (key : string) (st : Store) : Store :=
  setFetchErrors (λ prev, <[key := false]> prev)
    (setLastFetchTime (λ prev, <[key := now]> prev) st).

(** [markFetchError(key)] on the store. *)
Definition markFetchErrorAt (key : string) (st : Store) : Store :=
  setFetchErrors (λ prev, <[key := true]> prev) st.

(** ** Field mapping of fetched rows *)

Definition formatProject (isCollaboration : bool) (role : option string)
    (project : ProjectRow.t) : Project.t :=
  Project.mk (ProjectRow.id project) (ProjectRow.title project)
    (default "" (ProjectRow.description project))
    (ProjectRow.end_goal project)
    (ProjectRow.created_at project) (ProjectRow.updated_at project)
    (Some (ProjectRow.owner_id project))
    (Some (default "" (ProjectRow.owner project ≫= Owner.username)))
    (Some (default "" (ProjectRow.owner project ≫= Owner.email)))
    isCollaboration role.

Definition formatSprint (sprint : SprintRow.t) : Sprint.t :=
  Sprint.mk (SprintRow.id sprint) (SprintRow.title sprint)
    (default "" (SprintRow.description sprint))
    (SprintRow.project_id sprint)
    (SprintRow.start_date sprint) (SprintRow.end_date sprint)
    (SprintRow.status sprint).

(** Rows of a sprint: [updatedAt] is filled from [created_at]. *)
Definition formatSprintTask (task : TaskRow.t) : Task.t :=
  Task.mk (TaskRow.id task) (TaskRow.title task) (TaskRow.description task)
    (default "" (TaskRow.sprint_id task))
    (TaskRow.status task) (TaskRow.assign_to task) (TaskRow.story_points task)
    (TaskRow.priority task) (TaskRow.created_at task) (TaskRow.created_at task)
    (TaskRow.project_id task) (TaskRow.completion_date task).

(** Rows of a backlog: [sprintId] and [status] are forced. *)
Definition formatBacklogTask (task : TaskRow.t) : Task.t :=
  Task.mk (TaskRow.id task) (TaskRow.title task) (TaskRow.description task)
    "" "backlog" (TaskRow.assign_to task) (TaskRow.story_points task)
    (TaskRow.priority task) (TaskRow.created_at task) (TaskRow.updated_at task)
    (TaskRow.project_id task) (TaskRow.completion_date task).

(** [data.filter(item => item.projects).map(...)] *)
Definition formatCollaborations (data : list CollaboratorRow.t) : list Project.t :=
  omap (λ item,
          formatProject true (CollaboratorRow.role item)
            <$> CollaboratorRow.projects item) data.

(** The predicate of the backlog scope: [t.status === 'backlog' &&
    t.projectId === projectId && !t.sprintId]. *)
Definition inBacklogOf (projectId : string) (t : Task.t) : Prop :=
  Task.status t = "backlog" ∧ Task.projectId t = Some projectId ∧ Task.sprintId t = "".

Global Instance inBacklogOf_dec projectId t : Decision (inBacklogOf projectId t).
Proof. unfold inBacklogOf. apply _. Defined.

(** ** The handlers of the provider *)

Section Provider.
(** [user] of the auth context (its id), the gateway, the clock, and the
    store of the render whose handlers are running. *)
Variable user : option string.
Variable gateway : Gateway.
Variable clock : Clock.
Variable snap : Store.

Definition updateFetchTime (key : string) : Async unit :=
  w ← getWorld;
  update (updateFetchTimeAt (Date_now clock (tick w)) key);;
  setFetchTimeIsLocal false.

Definition markFetchError (key : string) : Async unit :=
  update (markFetchErrorAt key).

(** [!shouldRefetch(key) && <scope is cached> && !fetchErrors[key]]: the
    part of a fetch guard that every fetch shares. *)
Definition usesCache (now : Z) (key : string) (scopeIsCached : bool) : bool :=
  negb (shouldRefetch now (lastFetchTime snap) key defaultMaxAge)
  && scopeIsCached
  && negb (errored (fetchErrors snap) key).

Definition sprintsKey (projectId : string) : string := "sprints-" +:+ projectId.
Definition tasksKey (sprintId : string) : string := "tasks-sprint-" +:+ sprintId.
Definition backlogKey (projectId : string) : string := "backlog-" +:+ projectId.

(** The guards of the five fetch operations. *)
Definition fetchProjects_cached (now : Z) : bool :=
  usesCache now "projects" (bool_decide (0 < length (projects snap))%nat).
Definition fetchSprints_cached (now : Z) (projectId : string) (forceRefresh : bool) : bool :=
  negb forceRefresh
  && usesCache now (sprintsKey projectId)
       (bool_decide (Exists (λ s, Sprint.projectId s = projectId) (sprints snap))).
Definition fetchTasksBySprint_cached (now : Z) (sprintId : string) (forceRefresh : bool) : bool :=
  negb forceRefresh
  && usesCache now (tasksKey sprintId)
       (bool_decide (Exists (λ t, Task.sprintId t = sprintId) (tasks snap))).
Definition fetchBacklogTasks_cached (now : Z) (projectId : string) (forceRefresh : bool) : bool :=
  negb forceRefresh
  && usesCache now (backlogKey projectId)
       (bool_decide (Exists (inBacklogOf projectId) (tasks snap))).
Definition fetchCollaborativeProjects_cached (now : Z) : bool :=
  usesCache now "collaborations"
    (bool_decide (Exists (λ p, Project.isCollaboration p = true) (projects snap))).

(** [if (error) throw error] *)
Definition throwIf (error : bool) : Async unit :=
  if error then throw else mret tt.

Definition fetchTasksBySprint (sprintId : string) (forceRefresh : bool) : Async unit :=
  match user with
  | None => mret tt
  | Some _ =>
      w ← getWorld;
      let cacheKey := tasksKey sprintId in
      if fetchTasksBySprint_cached (Date_now clock (tick w)) sprintId forceRefresh
      then mret tt
      else
        tryCatch
          ('(error, data) ← await (λ n, select_tasks_by_sprint gateway n sprintId);
           throwIf error;;
           match data with
           | Some data =>
               let formattedTasks := formatSprintTask <$> data in
               update (setTasks (λ prev,
                         filter (λ t, Task.sprintId t ≠ sprintId) prev ++ formattedTasks));;
               updateFetchTime cacheKey
           | None => mret tt
           end)
          (markFetchError cacheKey)
  end.

Definition fetchBacklogTasks (projectId : string) (forceRefresh : bool) : Async unit :=
  match user with
  | None => mret tt
  | Some _ =>
      w ← getWorld;
      let cacheKey := backlogKey projectId in
      if fetchBacklogTasks_cached (Date_now clock (tick w)) projectId forceRefresh
      then mret tt
      else
        tryCatch
          ('(error, data) ← await (λ n, select_backlog_tasks gateway n projectId);
           throwIf error;;
           match data with
           | Some data =>
               let formattedTasks := formatBacklogTask <$> data in
               update (setTasks (λ prev,
                         filter (λ t, ¬ inBacklogOf projectId t) prev ++ formattedTasks));;
               updateFetchTime cacheKey
           | None => mret tt
           end)
          (markFetchError cacheKey)
  end.

Definition fetchSprints (projectId : string) (forceRefresh : bool) : Async unit :=
  match user with
  | None => mret tt
  | Some _ =>
      w ← getWorld;
      let cacheKey := sprintsKey projectId in
      if fetchSprints_cached (Date_now clock (tick w)) projectId forceRefresh
      then mret tt
      else
        tryCatch
          ('(error, data) ← await (λ n, select_sprints gateway n projectId);
           throwIf error;;
           match data with
           | Some data =>
               let formattedSprints := formatSprint <$> data in
               update (setSprints (λ prev,
                         filter (λ s, Sprint.projectId s ≠ projectId) prev
                         ++ formattedSprints));;
               updateFetchTime cacheKey;;
               forEach formattedSprints (λ sprint,
                 fetchTasksBySprint (Sprint.id sprint) forceRefresh;;
                 delay 300)
           | None => mret tt
           end)
          (markFetchError cacheKey)
  end.

(** The fan-out of [fetchProjects] and [fetchCollaborativeProjects]. *)
Definition fanOut (fetched : list Project.t) : Async unit :=
  forEach fetched (λ project,
    fetchSprints (Project.id project) false;;
    delay 500;;
    fetchBacklogTasks (Project.id project) false;;
    delay 500).

Definition fetchProjects : Async unit :=
  match user with
  | None => mret tt
  | Some userId =>
      if isLoading snap then mret tt else
      w ← getWorld;
      if fetchProjects_cached (Date_now clock (tick w)) then mret tt else
      update (setIsLoading true);;
      tryCatchFinally
        ('(error, data) ← await (λ n, select_projects gateway n userId);
         throwIf error;;
         match data with
         | Some data =>
             let formattedProjects := formatProject false None <$> data in
             update (setProjects (λ _, formattedProjects));;
             updateFetchTime "projects";;
             fanOut formattedProjects
         | None => mret tt
         end)
        (markFetchError "projects";;
         toast (ToastError "Failed to load projects. Please try refreshing the page."))
        (update (setIsLoading false))
  end.

Definition fetchCollaborativeProjects : Async unit :=
  match user with
  | None => mret tt
  | Some userId =>
      if isLoading snap then mret tt else
      w ← getWorld;
      if fetchCollaborativeProjects_cached (Date_now clock (tick w)) then mret tt else
      tryCatch
        ('(error, data) ← await (λ n, select_collaborators gateway n userId);
         throwIf error;;
         match data with
         | Some ((_ :: _) as data) =>
             let collaborativeProjects := formatCollaborations data in
             update (setProjects (λ prev,
                       filter (λ p, Project.isCollaboration p = false) prev
                       ++ collaborativeProjects));;
             updateFetchTime "collaborations";;
             fanOut collaborativeProjects
         | _ => mret tt
         end)
        (markFetchError "collaborations";;
         toast (ToastError
           "Failed to load collaborative projects. Please try refreshing the page."))
  end.

(** [delete newFetchTime[sprintKey]]: the local object is the state only
    as long as no setter has replaced it. *)
Definition deleteFromLocalFetchTime (key : string) : Async unit :=
  w ← getWorld;
  if fetchTimeIsLocal w
  then update (setLastFetchTime (λ current, delete key current))
  else mret tt.

Definition refreshProjectData (projectId : option string) : Async unit :=
  match user with
  | None => mret tt
  | Some _ =>
      tryCatch
        (match projectId with
         | Some projectId =>
             if truthy projectId then
               let newFetchTime :=
                 delete (backlogKey projectId)
                   (delete (sprintsKey projectId) (lastFetchTime snap)) in
               update (setLastFetchTime (λ _, newFetchTime));;
               setFetchTimeIsLocal true;;
               fetchSprints projectId true;;
               fetchBacklogTasks projectId true;;
               let projectSprints :=
                 filter (λ s, Sprint.projectId s = projectId) (sprints snap) in
               forEach projectSprints (λ sprint,
                 deleteFromLocalFetchTime (tasksKey (Sprint.id sprint));;
                 fetchTasksBySprint (Sprint.id sprint) true);;
               toast (ToastSuccess "Project data refreshed successfully")
             else
               update (setLastFetchTime (λ _, ∅));;
               setFetchTimeIsLocal false;;
               fetchProjects;;
               fetchCollaborativeProjects;;
               toast (ToastSuccess "All data refreshed successfully")
         | None =>
             update (setLastFetchTime (λ _, ∅));;
             setFetchTimeIsLocal false;;
             fetchProjects;;
             fetchCollaborativeProjects;;
             toast (ToastSuccess "All data refreshed successfully")
         end)
        (toast (ToastError "Failed to refresh project data"))
  end.

Definition deleteSprint (id : string) : Async unit :=
  match user with
  | None => throw
  | Some _ =>
      tryCatch
        (let targetSprint := find (λ s, bool_decide (Sprint.id s = id)) (sprints snap) in
         let projectId := Sprint.projectId <$> targetSprint in
         '(columnsQueryError, columnsData) ←
           await (λ n, select_board_columns gateway n id);
         throwIf columnsQueryError;;
         match columnsData with
         | Some ((_ :: _) as columnsData) =>
             forEach columnsData (λ column,
               '(columnDeleteError, _) ←
                 await (λ n, delete_board_column gateway n column);
               throwIf columnDeleteError)
         | _ => mret tt
         end;;
         '(tasksError, _) ← await (λ n, delete_tasks_by_sprint gateway n id);
         throwIf tasksError;;
         '(error, _) ← await (λ n, delete_sprint gateway n id);
         throwIf error;;
         update (setSprints (λ prev, filter (λ s, Sprint.id s ≠ id) prev));;
         update (setTasks (λ prev, filter (λ t, Task.sprintId t ≠ id) prev));;
         toast (ToastSuccess "Sprint deleted successfully");;
         if truthyOpt projectId then refreshProjectData projectId else mret tt)
        (toast (ToastError "Failed to delete sprint");; throw)
  end.



(** [{ ...existingTask, ...task, updatedAt }] *)
Definition mergeTask (existingTask : Task.t) (task : TaskPatch.t) (updatedAt : string)
  : Task.t :=
  Task.mk (Task.id existingTask)
    (default (Task.title existingTask) (TaskPatch.title task))
    (default (Task.description existingTask) (TaskPatch.description task))
    (default (Task.sprintId existingTask) (TaskPatch.sprintId task))
    (default (Task.status existingTask) (TaskPatch.status task))
    (default (Task.assignedTo existingTask) (TaskPatch.assignedTo task))
    (default (Task.storyPoints existingTask) (TaskPatch.storyPoints task))
    (default (Task.priority existingTask) (TaskPatch.priority task))
    (default (Task.createdAt existingTask) (TaskPatch.createdAt task))
    updatedAt
    (default (Task.projectId existingTask) (TaskPatch.projectId task))
    (default (Task.completionDate existingTask) (TaskPatch.completionDate task)).

Definition withCompletionDate (t : Task.t) (completionDate : option Z) : Task.t :=
  Task.mk (Task.id t) (Task.title t) (Task.description t) (Task.sprintId t)
    (Task.status t) (Task.assignedTo t) (Task.storyPoints t) (Task.priority t)
    (Task.createdAt t) (Task.updatedAt t) (Task.projectId t) completionDate.

(** The merge of [updateTask] up to the completion-date test. *)
Definition preserveCompletionDate (existingTask : Task.t) (task : TaskPatch.t)
    (updatedTask : Task.t) : Task.t :=
  if negb (bool_decide (is_Some (TaskPatch.completionDate task)))
     && bool_decide (is_Some (Task.completionDate existingTask))
  then withCompletionDate updatedTask (Task.completionDate existingTask)
  else updatedTask.

(** [task.status === 'done' && existingTask.status !== 'done' &&
    !updatedTask.completionDate] *)
Definition stampsCompletion (existingTask : Task.t) (task : TaskPatch.t)
    (updatedTask : Task.t) : bool :=
  bool_decide (TaskPatch.status task = Some "done")
  && bool_decide (Task.status existingTask ≠ "done")
  && negb (bool_decide (is_Some (Task.completionDate updatedTask))).

(** [sprintChanged || movedToBacklog || movedFromBacklog] *)
Definition movesTask (existingTask : Task.t) (task : TaskPatch.t) : bool :=
  let movedToBacklog :=
    bool_decide (TaskPatch.status task = Some "backlog")
    && bool_decide (Task.status existingTask ≠ "backlog") in
  let movedFromBacklog :=
    bool_decide (TaskPatch.status task ≠ Some "backlog")
    && bool_decide (Task.status existingTask = "backlog") in
  let sprintChanged :=
    match TaskPatch.sprintId task with
    | Some sprintId => bool_decide (sprintId ≠ Task.sprintId existingTask)
    | None => false
    end in
  sprintChanged || movedToBacklog || movedFromBacklog.

(** The refetches of [updateTask] once the task has moved between sprints
    or between a sprint and the backlog. *)
Definition refetchMovedTask (existingTask : Task.t) (task : TaskPatch.t) : Async unit :=
  match Task.projectId existingTask with
  | Some projectId =>
      if truthy projectId then
        (if truthy (Task.sprintId existingTask)
         then fetchTasksBySprint (Task.sprintId existingTask) true
         else mret tt);;
        (if truthyOpt (TaskPatch.sprintId task)
         then fetchTasksBySprint (default "" (TaskPatch.sprintId task)) true
         else mret tt);;
        fetchBacklogTasks projectId true
      else mret tt
  | None => mret tt
  end.

Definition updateTask (id : string) (task : TaskPatch.t) : Async Task.t :=
  match user with
  | None => throw
  | Some _ =>
      tryCatch
        (match find (λ t, bool_decide (Task.id t = id)) (tasks snap) with
         | None => throw
         | Some existingTask =>
             '(error, _) ← await (λ n, update_task gateway n id task);
             throwIf error;;
             w ← getWorld;
             let updatedTask :=
               preserveCompletionDate existingTask task
                 (mergeTask existingTask task (nowISO clock (tick w))) in
             updatedTask ←
               (if stampsCompletion existingTask task updatedTask then
                  let today := todayDate clock (tick w) in
                  await (λ n, update_completion_date gateway n id today);;
                  mret (withCompletionDate updatedTask (Some today))
                else mret updatedTask);
             update (setTasks (λ prev,
               (λ t, if bool_decide (Task.id t = id) then updatedTask else t) <$> prev));;
             (if movesTask existingTask task
              then refetchMovedTask existingTask task
              else mret tt);;
             mret updatedTask
         end)
        throw
  end.
End Provider.

(** ** Quantities the statements below speak about *)

Module BurndownFacts.
Import Burndown.
Local Open Scope Z_scope.

(** The tasks the engine works on: the tasks of the project's sprints
    that carry a positive estimate ([tasksWithPoints]). *)
Definition tasksWithPoints (sprints : list Sprint.t) (tasks : list Task.t)
    (projectId : string) : list Task.t :=
  filter (λ t, hasPoints t = true)
         (gatherTasks tasks (getSprintsByProject sprints projectId)).

(** [totalStoryPoints] *)
Definition totalStoryPoints (sprints : list Sprint.t) (tasks : list Task.t)
    (projectId : string) : Q :=
  sumPoints 0%Q (tasksWithPoints sprints tasks projectId).

(** [timeframeDays] for a span from [earliest] to [latest]. *)
Definition timeframeDays (earliest latest : Z) : Z :=
  Z.max (latest - earliest + 1) 7.

(** [e] is the earliest start date of the sprints [ps]. *)
Definition isEarliestStart (e : Z) (ps : list Sprint.t) : Prop :=
  (∃ s, s ∈ ps ∧ Sprint.startDate s = e) ∧ ∀ s, s ∈ ps → e ≤ Sprint.startDate s.

(** [l] is the latest end date of the sprints [ps]. *)
Definition isLatestEnd (l : Z) (ps : list Sprint.t) : Prop :=
  (∃ s, s ∈ ps ∧ Sprint.endDate s = l) ∧ ∀ s, s ∈ ps → Sprint.endDate s ≤ l.

(** A task done with a completion date between [lo] and [hi]. *)
Definition doneWithin (lo hi : Z) (t : Task.t) : Prop :=
  Task.status t = "done"
  ∧ ∃ c, Task.completionDate t = Some c ∧ lo ≤ c ≤ hi.

(** A task done with a completion date on or before [d]. *)
Definition doneBy (d : Z) (t : Task.t) : Prop :=
  Task.status t = "done"
  ∧ ∃ c, Task.completionDate t = Some c ∧ c ≤ d.

(** A task done on the date [d]. *)
Definition doneOn (d : Z) (t : Task.t) : Prop :=
  Task.status t = "done" ∧ Task.completionDate t = Some d.

Global Instance doneWithin_dec lo hi t : Decision (doneWithin lo hi t).
Proof.
  unfold doneWithin. destruct (Task.completionDate t) as [c|].
  - destruct (decide (Task.status t = "done" ∧ lo ≤ c ≤ hi)) as [H|H].
    + left. destruct H as [? ?]. split; [done|]. by exists c.
    + right. intros [? (c' & [= <-] & ?)]. by apply H.
  - right. by intros [? (c' & [=] & ?)].
Defined.

Global Instance doneBy_dec d t : Decision (doneBy d t).
Proof.
  unfold doneBy. destruct (Task.completionDate t) as [c|].
  - destruct (decide (Task.status t = "done" ∧ c ≤ d)) as [H|H].
    + left. destruct H as [? ?]. split; [done|]. by exists c.
    + right. intros [? (c' & [= <-] & ?)]. by apply H.
  - right. by intros [? (c' & [=] & ?)].
Defined.

Global Instance doneOn_dec d t : Decision (doneOn d t).
Proof. unfold doneOn. apply _. Defined.



(** The sum of the points of a list, from the right. *)
Definition total (ts : list Task.t) : Q :=
  foldr (λ t acc, (pointsOf t + acc)%Q) 0%Q ts.
End BurndownFacts.

(** ** The five fetch operations, as one family *)

Inductive FetchOp :=
  | FetchProjects
  | FetchSprints (projectId : string) (forceRefresh : bool)
  | FetchTasksBySprint (sprintId : string) (forceRefresh : bool)
  | FetchBacklogTasks (projectId : string) (forceRefresh : bool)
  | FetchCollaborativeProjects.

(** A reply that makes the caller throw: a rejection, or an error field. *)
Definition failed {A} (r : Reply A) : bool :=
  match r with
  | Rejects => true
  | Resolves error _ => error
  end.

Section FetchOps.
Variable user : option string.
Variable gateway : Gateway.
Variable clock : Clock.
Variable snap : Store.

Definition runFetch (op : FetchOp) : Async unit :=
  match op with
  | FetchProjects => fetchProjects user gateway clock snap
  | FetchSprints projectId forceRefresh =>
      fetchSprints user gateway clock snap projectId forceRefresh
  | FetchTasksBySprint sprintId forceRefresh =>
      fetchTasksBySprint user gateway clock snap sprintId forceRefresh
  | FetchBacklogTasks projectId forceRefresh =>
      fetchBacklogTasks user gateway clock snap projectId forceRefresh
  | FetchCollaborativeProjects => fetchCollaborativeProjects user gateway clock snap
  end.

(** The cache key an operation marks. *)
Definition fetchKey (op : FetchOp) : string :=
  match op with
  | FetchProjects => "projects"
  | FetchSprints projectId _ => sprintsKey projectId
  | FetchTasksBySprint sprintId _ => tasksKey sprintId
  | FetchBacklogTasks projectId _ => backlogKey projectId
  | FetchCollaborativeProjects => "collaborations"
  end.

(** The operation gets past its guards and issues its remote read. *)
Definition issuesRead (op : FetchOp) (now : Z) : bool :=
  match op with
  | FetchProjects => negb (isLoading snap) && negb (fetchProjects_cached snap now)
  | FetchSprints projectId forceRefresh =>
      negb (fetchSprints_cached snap now projectId forceRefresh)
  | FetchTasksBySprint sprintId forceRefresh =>
      negb (fetchTasksBySprint_cached snap now sprintId forceRefresh)
  | FetchBacklogTasks projectId forceRefresh =>
      negb (fetchBacklogTasks_cached snap now projectId forceRefresh)
  | FetchCollaborativeProjects =>
      negb (isLoading snap) && negb (fetchCollaborativeProjects_cached snap now)
  end.

(** The remote read of the operation, issued as call number [n], fails. *)
Definition readFails (op : FetchOp) (userId : string) (n : nat) : bool :=
  match op with
  | FetchProjects => failed (select_projects gateway n userId)
  | FetchSprints projectId _ => failed (select_sprints gateway n projectId)
  | FetchTasksBySprint sprintId _ => failed (select_tasks_by_sprint gateway n sprintId)
  | FetchBacklogTasks projectId _ => failed (select_backlog_tasks gateway n projectId)
  | FetchCollaborativeProjects => failed (select_collaborators gateway n userId)
  end.
End FetchOps.

(** ** The staleness test of the fetch guards

    Every fetch guard uses its cache only when
    [!shouldRefetch(key) && ... && !fetchErrors[key]]: it treats the key as
    stale when [shouldRefetch] holds or the key is flagged as errored. This
    is that test, for an arbitrary [maxAge]. *)
Definition isStale (snap : Store) (now : Z) (key : string) (maxAge : Z) : bool :=
  shouldRefetch now (lastFetchTime snap) key maxAge || errored (fetchErrors snap) key.

(** ** Frames and totality of handlers *)

(** [m] leaves the part [view] of the store as it found it. *)
Definition keeps {A B} (view : Store → B) (m : Async A) : Prop :=
  ∀ w, view (store (m w).2) = view (store w).

(** [m] never throws. *)
Definition neverRaises {A} (m : Async A) : Prop :=
  ∀ w, ∃ a w', m w = (Returned a, w').

(** The cached data of the store: everything but the loading flag and the
    freshness bookkeeping. *)
Definition cachedData (st : Store)
  : list Project.t * list Sprint.t * list Task.t * gmap string (list BurndownData.t) :=
  (projects st, sprints st, tasks st, burndownData st).


(** ** Sample data: project "alpha", one sprint over days 100 to 106 *)

Module Sample.
Definition noFormat : Z → string := λ _, "".

Definition sprint1 : Sprint.t :=
  Sprint.mk "s1" "Sprint 1" "" "alpha" 100 106 "in-progress".
Definition sprint2 : Sprint.t :=
  Sprint.mk "s2" "Sprint 2" "" "alpha" 107 113 "planned".
Definition otherSprint : Sprint.t :=
  Sprint.mk "s9" "Sprint 9" "" "beta" 100 106 "planned".

Definition mkTask (id sprintId status : string) (points : Q)
    (projectId : string) (completionDate : option Z) : Task.t :=
  Task.mk id id None sprintId status None (Some points) None "" ""
          (Some projectId) completionDate.

Definition taskA : Task.t := mkTask "a" "s1" "done" 5 "alpha" (Some 102%Z).
Definition taskB : Task.t := mkTask "b" "s1" "todo" 3 "alpha" None.
(** A done backlog task with points, completed inside the span. *)
Definition taskBacklog : Task.t := mkTask "bk" "" "done" 8 "alpha" (Some 101%Z).

Definition projectAlpha : Project.t :=
  Project.mk "alpha" "Alpha" "" None "" "" (Some "u") (Some "") (Some "") false None.
(** A project shared with the user by somebody else. *)
Definition projectShared : Project.t :=
  Project.mk "shared" "Shared" "" None "" "" (Some "v") (Some "") (Some "") true
             (Some "member").

Definition sprint2Row : SprintRow.t :=
  SprintRow.mk "s2" "Sprint 2" None "alpha" 107 113 "planned".

Definition clock : Clock :=
  {| Date_now := λ n, (1700000000000 + Z.of_nat n)%Z;
     todayDate := λ _, 104%Z;
     nowISO := λ _, "2024-01-05T09:00:00.000Z" |}.

(** A gateway on which every call succeeds and every read is empty. *)
Definition quiet : Gateway :=
  {| select_projects := λ _ _, Resolves false (Some []);
     select_sprints := λ _ _, Resolves false (Some []);
     select_tasks_by_sprint := λ _ _, Resolves false (Some []);
     select_backlog_tasks := λ _ _, Resolves false (Some []);
     select_collaborators := λ _ _, Resolves false (Some []);
     select_board_columns := λ _ _, Resolves false (Some []);
     delete_board_column := λ _ _, Resolves false None;
     delete_tasks_by_sprint := λ _ _, Resolves false None;
     delete_sprint := λ _ _, Resolves false None;
     delete_backlog_tasks := λ _ _, Resolves false None;
     delete_project := λ _ _ _, Resolves false None;
     update_task := λ _ _ _, Resolves false None;
     update_completion_date := λ _ _ _, Resolves false None |}.

(** The same, but the sprint read of "alpha" returns sprint 2. *)
Definition withSprint2 : Gateway :=
  {| select_projects := select_projects quiet;
     select_sprints := λ _ projectId,
       if bool_decide (projectId = "alpha")
       then Resolves false (Some [sprint2Row]) else Resolves false (Some []);
     select_tasks_by_sprint := select_tasks_by_sprint quiet;
     select_backlog_tasks := select_backlog_tasks quiet;
     select_collaborators := select_collaborators quiet;
     select_board_columns := select_board_columns quiet;
     delete_board_column := delete_board_column quiet;
     delete_tasks_by_sprint := delete_tasks_by_sprint quiet;
     delete_sprint := delete_sprint quiet;
     delete_backlog_tasks := delete_backlog_tasks quiet;
     delete_project := delete_project quiet;
     update_task := update_task quiet;
     update_completion_date := update_completion_date quiet |}.

(** Sprint 1 can be deleted, then only sprint 2 is left remotely; the
    board columns of sprint 2 cannot be read. *)
Definition sprint2Stuck : Gateway :=
  {| select_projects := select_projects quiet;
     select_sprints := select_sprints withSprint2;
     select_tasks_by_sprint := select_tasks_by_sprint quiet;
     select_backlog_tasks := select_backlog_tasks quiet;
     select_collaborators := select_collaborators quiet;
     select_board_columns := λ _ sprintId,
       if bool_decide (sprintId = "s2")
       then Resolves true None else Resolves false (Some []);
     delete_board_column := delete_board_column quiet;
     delete_tasks_by_sprint := delete_tasks_by_sprint quiet;
     delete_sprint := delete_sprint quiet;
     delete_backlog_tasks := delete_backlog_tasks quiet;
     delete_project := delete_project quiet;
     update_task := update_task quiet;
     update_completion_date := update_completion_date quiet |}.

(** A gateway whose reads are all rejected. *)
Definition offline : Gateway :=
  {| select_projects := λ _ _, Rejects;
     select_sprints := λ _ _, Rejects;
     select_tasks_by_sprint := λ _ _, Rejects;
     select_backlog_tasks := λ _ _, Rejects;
     select_collaborators := λ _ _, Rejects;
     select_board_columns := λ _ _, Rejects;
     delete_board_column := delete_board_column quiet;
     delete_tasks_by_sprint := delete_tasks_by_sprint quiet;
     delete_sprint := delete_sprint quiet;
     delete_backlog_tasks := delete_backlog_tasks quiet;
     delete_project := delete_project quiet;
     update_task := update_task quiet;
     update_completion_date := update_completion_date quiet |}.

Definition store0 : Store :=
  mkStore [projectAlpha; projectShared] [sprint1; sprint2; otherSprint] [taskA; taskB]
          {["alpha" := []]} false ∅ ∅.

Definition world0 : World := mkWorld store0 0 [] false.

(** [{ status: 'done' }] *)
Definition markDone : TaskPatch.t :=
  TaskPatch.mk None None None (Some "done") None None None None None None None.

(** [{ status: 'done', completionDate: <day 90> }] *)
Definition markDoneOn90 : TaskPatch.t :=
  TaskPatch.mk None None None (Some "done") None None None None None None
               (Some (Some 90%Z)).
End Sample.

(** ** The other handlers of the provider *)

(** The rows sent by the inserts. *)
Module ProjectInsert.
Record t := mk {
  title : string;
  description : string;
  end_goal : option string;
  owner_id : string }.
End ProjectInsert.

Module SprintInsert.
Record t := mk {
  title : string;
  description : string;
  project_id : string;
  start_date : Z;
  end_date : Z;
  status : string;
  user_id : string }.
End SprintInsert.

Module TaskInsert.
Record t := mk {
  title : string;
  description : option string;
  status : string;
  assign_to : option string;
  story_points : option Q;
  priority : option string;
  sprint_id : option string;
  project_id : string;
  user_id : string }.
End TaskInsert.

(** [Partial<Omit<Sprint, "id">>] *)
Module SprintPatch.
Record t := mk {
  title : option string;
  description : option string;
  projectId : option string;
  startDate : option Z;
  endDate : option Z;
  status : option string }.
End SprintPatch.

(** The writes of the gateway that the handlers below issue; [insert]
    is followed by [.select().single()], which resolves to one row. *)
Record Mutations := {
  insert_project : nat → ProjectInsert.t → Reply ProjectRow.t;
  insert_sprint : nat → SprintInsert.t → Reply SprintRow.t;
  insert_task : nat → TaskInsert.t → Reply TaskRow.t;
  update_sprint : nat → string → SprintPatch.t → Reply unit;
  delete_task : nat → string → string → Reply unit }.

(** [generateDefaultBurndownData()], [new Date()] falling on day [today]. *)
Definition generateDefaultBurndownData (today : Z) : list BurndownData.t :=
  fold_left
    (λ data (i : nat), data ++ [BurndownData.mk (today + Z.of_nat i)%Z 0 0])
    (seq 0 21) [].

(** [getBurndownData(projectId)]: an array, even empty, is truthy. *)
Definition getBurndownData (burndownData : gmap string (list BurndownData.t))
    (today : Z) (projectId : string) : list BurndownData.t :=
  match burndownData !! projectId with
  | Some series => series
  | None => generateDefaultBurndownData today
  end.

Definition getProject (projects : list Project.t) (id : string) : option Project.t :=
  find (λ p, bool_decide (Project.id p = id)) projects.

Definition getSprint (sprints : list Sprint.t) (id : string) : option Sprint.t :=
  find (λ s, bool_decide (Sprint.id s = id)) sprints.

Definition getTask (tasks : list Task.t) (id : string) : option Task.t :=
  find (λ t, bool_decide (Task.id t = id)) tasks.

(** The branch of the effect on [user] that runs when nobody is signed in. *)
Definition resetOnSignOut (st : Store) : Store :=
  setBurndownData (λ _, ∅)
    (setTasks (λ _, []) (setSprints (λ _, []) (setProjects (λ _, []) st))).

(** [{ ...existingSprint, ...sprint }] *)
Definition mergeSprint (existingSprint : Sprint.t) (sprint : SprintPatch.t) : Sprint.t :=
  Sprint.mk (Sprint.id existingSprint)
    (default (Sprint.title existingSprint) (SprintPatch.title sprint))
    (default (Sprint.description existingSprint) (SprintPatch.description sprint))
    (default (Sprint.projectId existingSprint) (SprintPatch.projectId sprint))
    (default (Sprint.startDate existingSprint) (SprintPatch.startDate sprint))
    (default (Sprint.endDate existingSprint) (SprintPatch.endDate sprint))
    (default (Sprint.status existingSprint) (SprintPatch.status sprint)).

(** [existingSprint.status !== 'completed' && sprint.status === 'completed'] *)
Definition isCompletingStatus (existingSprint : Sprint.t) (sprint : SprintPatch.t) : bool :=
  bool_decide (Sprint.status existingSprint ≠ "completed")
  && bool_decide (SprintPatch.status sprint = Some "completed").

Section Mutating.
Variable user : option string.
Variable gateway : Gateway.
Variable mutations : Mutations.
Variable clock : Clock.
Variable snap : Store.

(** The argument of [addProject] is a project without [id], [createdAt]
    and [updatedAt]: those fields of [project] are not read. *)
Definition addProject (project : Project.t) : Async Project.t :=
  match user with
  | None => throw
  | Some userId =>
      tryCatch
        ('(error, data) ← await (λ n, insert_project mutations n
            (ProjectInsert.mk (Project.title project) (Project.description project)
               (Project.endGoal project) userId));
         throwIf error;;
         match data with
         | None => throw
         | Some data =>
             let newProject :=
               Project.mk (ProjectRow.id data) (ProjectRow.title data)
                 (default "" (ProjectRow.description data))
                 (ProjectRow.end_goal data)
                 (ProjectRow.created_at data) (ProjectRow.updated_at data)
                 (Some (ProjectRow.owner_id data))
                 (Some (default "" (ProjectRow.owner data ≫= Owner.username)))
                 None false None in
             update (setProjects (λ prev, prev ++ [newProject]));;
             w ← getWorld;
             update (setBurndownData (λ prev,
               <[Project.id newProject :=
                   generateDefaultBurndownData (todayDate clock (tick w))]> prev));;
             mret newProject
         end)
        throw
  end.

(** The argument of [addSprint] is a sprint without [id]. *)
Definition addSprint (sprint : Sprint.t) : Async Sprint.t :=
  match user with
  | None => throw
  | Some userId =>
      tryCatch
        ('(error, data) ← await (λ n, insert_sprint mutations n
            (SprintInsert.mk (Sprint.title sprint) (Sprint.description sprint)
               (Sprint.projectId sprint) (Sprint.startDate sprint)
               (Sprint.endDate sprint) (Sprint.status sprint) userId));
         throwIf error;;
         match data with
         | None => throw
         | Some data =>
             let newSprint := formatSprint data in
             update (setSprints (λ prev, prev ++ [newSprint]));;
             refreshProjectData user gateway clock snap (Some (Sprint.projectId sprint));;
             mret newSprint
         end)
        throw
  end.

Definition updateSprint (id : string) (sprint : SprintPatch.t) : Async Sprint.t :=
  match user with
  | None => throw
  | Some _ =>
      tryCatch
        (match find (λ s, bool_decide (Sprint.id s = id)) (sprints snap) with
         | None => throw
         | Some existingSprint =>
             let projectId := Sprint.projectId existingSprint in
             '(error, _) ← await (λ n, update_sprint mutations n id sprint);
             throwIf error;;
             let updatedSprint := mergeSprint existingSprint sprint in
             update (setSprints (λ prev,
               (λ s, if bool_decide (Sprint.id s = id) then updatedSprint else s) <$> prev));;
             (if isCompletingStatus existingSprint sprint && truthy projectId
              then refreshProjectData user gateway clock snap (Some projectId)
              else mret tt);;
             mret updatedSprint
         end)
        throw
  end.

(** The argument of [addTask] is a task without [id], [createdAt] and
    [updatedAt]. *)
Definition addTask (task : Task.t) : Async Task.t :=
  match user with
  | None => throw
  | Some userId =>
      tryCatch
        (let isBacklogTask := bool_decide (Task.status task = "backlog") in
         match Task.projectId task with
         | None => throw
         | Some projectId =>
             if negb (truthy projectId) then throw else
             let taskData :=
               TaskInsert.mk (Task.title task) (Task.description task) (Task.status task)
                 (Task.assignedTo task) (Task.storyPoints task) (Task.priority task)
                 (if isBacklogTask then None else Some (Task.sprintId task))
                 projectId userId in
             '(error, data) ← await (λ n, insert_task mutations n taskData);
             throwIf error;;
             match data with
             | None => throw
             | Some data =>
                 let newTask := formatSprintTask data in
                 update (setTasks (λ prev, prev ++ [newTask]));;
                 (if isBacklogTask
                  then fetchBacklogTasks user gateway clock snap projectId true
                  else if truthy (Task.sprintId task)
                       then fetchTasksBySprint user gateway clock snap
                              (Task.sprintId task) true
                       else mret tt);;
                 mret newTask
             end
         end)
        throw
  end.

Definition deleteTask (id : string) : Async unit :=
  match user with
  | None => throw
  | Some userId =>
      tryCatch
        (match find (λ t, bool_decide (Task.id t = id)) (tasks snap) with
         | None => throw
         | Some taskToDelete =>
             '(error, _) ← await (λ n, delete_task mutations n id userId);
             throwIf error;;
             update (setTasks (λ prev, filter (λ t, Task.id t ≠ id) prev));;
             if truthy (Task.sprintId taskToDelete)
             then fetchTasksBySprint user gateway clock snap
                    (Task.sprintId taskToDelete) true
             else if truthyOpt (Task.projectId taskToDelete)
                  then fetchBacklogTasks user gateway clock snap
                         (default "" (Task.projectId taskToDelete)) true
                  else mret tt
         end)
        throw
  end.
End Mutating.

(** ** The chart component around the engine *)

Module Chart.
Local Open Scope Z_scope.





(** [groupCompletedSprintsByEndDate(sprints)]; the resulting map is read
    by key, the order in which its keys were entered is not kept. *)
Definition groupSprintStep (m : gmap Z (list Sprint.t)) (sprint : Sprint.t)
  : gmap Z (list Sprint.t) :=
  if bool_decide (Sprint.status sprint = "completed") then
    let endDateStr := Sprint.endDate sprint in
    let m' := match m !! endDateStr with
              | None => <[endDateStr := []]> m
              | Some _ => m
              end in
    match m' !! endDateStr with
    | Some sprints => <[endDateStr := sprints ++ [sprint]]> m'
    | None => m'
    end
  else m.

Definition groupCompletedSprintsByEndDate (sprints : list Sprint.t)
  : gmap Z (list Sprint.t) :=
  fold_left groupSprintStep sprints ∅.
End Chart.

(** ** Predicates of the statements about the handlers *)

(** [m], when it throws, has left the store as it found it. *)
Definition undoneOnThrow {A} (m : Async A) : Prop :=
  ∀ w, (m w).1 = Raised → store (m w).2 = store w.

(** [m] returns, and the notification it shows last is [t]. *)
Definition announces (t : Toast) (m : Async unit) : Prop :=
  ∀ w, ∃ w', m w = (Returned tt, w') ∧ last (toasts w') = Some t.

(** ** More sample data *)

Module Sample2.
(** Inserts resolve to the row below, the other writes succeed. *)
Definition taskCRow : TaskRow.t :=
  TaskRow.mk "c" "C" None (Some "s1") "todo" None (Some 2%Q) None
             "2024-01-05T09:00:00.000Z" "2024-01-05T09:00:00.000Z" (Some "alpha") None.

Definition projectRow : ProjectRow.t :=
  ProjectRow.mk "gamma" "Gamma" None None "2024-01-05T09:00:00.000Z"
                "2024-01-05T09:00:00.000Z" "u" None.

Definition sprint3Row : SprintRow.t :=
  SprintRow.mk "s3" "Sprint 3" None "alpha" 114 120 "planned".

Definition writes : Mutations :=
  {| insert_project := λ _ _, Resolves false (Some projectRow);
     insert_sprint := λ _ _, Resolves false (Some sprint3Row);
     insert_task := λ _ _, Resolves false (Some taskCRow);
     update_sprint := λ _ _ _, Resolves false None;
     delete_task := λ _ _ _, Resolves false None |}.

(** Every write is refused. *)
Definition refused : Mutations :=
  {| insert_project := λ _ _, Resolves true None;
     insert_sprint := λ _ _, Resolves true None;
     insert_task := λ _ _, Resolves true None;
     update_sprint := λ _ _ _, Resolves true None;
     delete_task := λ _ _ _, Resolves true None |}.

(** A task to add that names no project. *)
Definition orphanTask : Task.t :=
  Task.mk "" "Orphan" None "s1" "todo" None None None "" "" None None.

(** [{ status: 'completed' }] *)
Definition complete : SprintPatch.t :=
  SprintPatch.mk None None None None None (Some "completed").

(** [{ title: 'Renamed' }] *)
Definition rename : SprintPatch.t :=
  SprintPatch.mk (Some "Renamed") None None None None None.

(** Task a as the remote store returns it. *)
Definition taskARow : TaskRow.t :=
  TaskRow.mk "a" "a" None (Some "s1") "done" None (Some 5%Q) None "" "" (Some "alpha")
             (Some 102%Z).

(** A gateway whose reads of the tasks of sprint 1 return task a. *)
Definition withTaskA : Gateway :=
  {| select_projects := select_projects Sample.quiet;
     select_sprints := select_sprints Sample.quiet;
     select_tasks_by_sprint := λ _ sprintId,
       if bool_decide (sprintId = "s1")
       then Resolves false (Some [taskARow]) else Resolves false (Some []);
     select_backlog_tasks := select_backlog_tasks Sample.quiet;
     select_collaborators := select_collaborators Sample.quiet;
     select_board_columns := select_board_columns Sample.quiet;
     delete_board_column := delete_board_column Sample.quiet;
     delete_tasks_by_sprint := delete_tasks_by_sprint Sample.quiet;
     delete_sprint := delete_sprint Sample.quiet;
     delete_backlog_tasks := delete_backlog_tasks Sample.quiet;
     delete_project := delete_project Sample.quiet;
     update_task := update_task Sample.quiet;
     update_completion_date := update_completion_date Sample.quiet |}.

(** A backlog row of project "alpha" that still carries a sprint id and
    the status "todo". *)
Definition backlogRow : TaskRow.t :=
  TaskRow.mk "k" "K" None (Some "s1") "todo" None (Some 1%Q) None
             "2024-01-05T09:00:00.000Z" "2024-01-06T09:00:00.000Z" (Some "alpha") None.

(** A project of user "v" shared with the user, and a collaboration whose
    project could not be joined. *)
Definition sharedRow : ProjectRow.t :=
  ProjectRow.mk "delta" "Delta" None None "2024-01-05T09:00:00.000Z"
                "2024-01-05T09:00:00.000Z" "v" None.

Definition collaborations : list CollaboratorRow.t :=
  [CollaboratorRow.mk (Some "team_member") (Some sharedRow);
   CollaboratorRow.mk (Some "team_member") None].

(** A gateway whose reads of projects, collaborations and of the backlog
    of "alpha" are not empty. *)
Definition populated : Gateway :=
  {| select_projects := λ _ _, Resolves false (Some [projectRow]);
     select_sprints := select_sprints Sample.quiet;
     select_tasks_by_sprint := select_tasks_by_sprint withTaskA;
     select_backlog_tasks := λ _ projectId,
       if bool_decide (projectId = "alpha")
       then Resolves false (Some [backlogRow]) else Resolves false (Some []);
     select_collaborators := λ _ _, Resolves false (Some collaborations);
     select_board_columns := select_board_columns Sample.quiet;
     delete_board_column := delete_board_column Sample.quiet;
     delete_tasks_by_sprint := delete_tasks_by_sprint Sample.quiet;
     delete_sprint := delete_sprint Sample.quiet;
     delete_backlog_tasks := delete_backlog_tasks Sample.quiet;
     delete_project := delete_project Sample.quiet;
     update_task := update_task Sample.quiet;
     update_completion_date := update_completion_date Sample.quiet |}.

(** The store of a render that fetched projects and collaborations at
    the time of the sample clock's first reading. *)
Definition freshStore : Store :=
  updateFetchTimeAt 1700000000000 "collaborations"
    (updateFetchTimeAt 1700000000000 "projects" Sample.store0).
End Sample2.

Example burndown_alpha :
  let s := Sprint.mk "s1" "Sprint 1" "" "alpha" 100 106 "in-progress" in
  let a := Task.mk "a" "A" None "s1" "done" None (Some 5%Q) None "" "" (Some "alpha") (Some 102%Z) in
  let b := Task.mk "b" "B" None "s1" "todo" None (Some 3%Q) None "" "" (Some "alpha") None in
  map (λ p, (BurndownDataPoint.ideal p, BurndownDataPoint.actual p))
      (Burndown.generateBurndownData (λ _, "") 104 [s] [a; b] "alpha")
  = [(8, Some 8); (7, Some 8); (6, Some 3); (5, Some 3); (3, Some 3); (2, None); (1, None)]%Z.
Proof. vm_compute. reflexivity. Qed.

(** * Two facts about [filter] *)

Lemma filter_agree {A} (P Q : A → Prop) `{!∀ x, Decision (P x)} `{!∀ x, Decision (Q x)}
    (l : list A) :
  (∀ x, x ∈ l → P x ↔ Q x) → filter P l = filter Q l.
Proof.
  induction l as [|x l IH]; intros Hiff; [done|].
  rewrite !filter_cons, IH by (intros y Hy; apply Hiff; by right).
  destruct (Hiff x) as [HPQ HQP]; [left|].
  destruct (decide (P x)), (decide (Q x)); tauto.
Qed.

Lemma filter_none {A} (P : A → Prop) `{!∀ x, Decision (P x)} (l : list A) :
  (∀ x, x ∈ l → ¬ P x) → filter P l = [].
Proof.
  induction l as [|x l IH]; intros Hnot; [done|].
  rewrite filter_cons, IH by (intros y Hy; apply Hnot; by right).
  rewrite decide_False; [done|]. apply Hnot. left.
Qed.

(** * Facts about the burndown engine *)

Module BurndownProofs.
Import Burndown BurndownFacts.
Local Open Scope Z_scope.

(** *** The insertion-ordered map *)

Lemma JsMap_set_fresh {V} (k : Z) (v : V) (m : list (Z * V)) :
  k ∉ JsMap.keys m → JsMap.set k v m = m ++ [(k, v)].
Proof.
  unfold JsMap.keys.
  induction m as [|[k' v'] m IH]; simpl; intros Hk; [done|].
  apply not_elem_of_cons in Hk as [Hne Hk].
  case_decide; [congruence|]. by rewrite IH.
Qed.

(** Setting pairwise distinct keys one after the other only appends. *)
Lemma JsMap_fill {V} (key : nat → Z) (p : nat → V) (n : nat) :
  (∀ i j, key i = key j → i = j) →
  fold_left (λ m i, JsMap.set (key i) (p i) m) (seq 0 n) []
  = (λ i, (key i, p i)) <$> seq 0 n.
Proof.
  intros Hinj. induction n as [|n IH]; [done|].
  rewrite seq_S, fold_left_app, IH, fmap_app. simpl.
  apply JsMap_set_fresh. unfold JsMap.keys.
  rewrite <- list_fmap_compose. intros Hin.
  apply list_elem_of_fmap in Hin as (i & Heq & Hi).
  apply elem_of_seq in Hi. simpl in Heq. apply Hinj in Heq. lia.
Qed.

(** *** The span of the sprints *)

Lemma span_from (ps : list Sprint.t) (e0 l0 : Z) :
  ∃ e l, fold_left spanStep ps (Some e0, Some l0) = (Some e, Some l)
    ∧ e ≤ e0 ∧ l0 ≤ l
    ∧ (e = e0 ∨ ∃ s, s ∈ ps ∧ Sprint.startDate s = e)
    ∧ (l = l0 ∨ ∃ s, s ∈ ps ∧ Sprint.endDate s = l)
    ∧ (∀ s, s ∈ ps → e ≤ Sprint.startDate s)
    ∧ (∀ s, s ∈ ps → Sprint.endDate s ≤ l).
Proof.
  revert e0 l0. induction ps as [|s ps IH]; intros e0 l0; simpl.
  - exists e0, l0. repeat split; try lia; auto; intros s Hs; inversion Hs.
  - unfold spanStep at 2. simpl.
    set (e1 := if bool_decide (Sprint.startDate s < e0) then _ else _).
    set (l1 := if bool_decide (Sprint.endDate s > l0) then _ else _).
    assert (∃ e1', e1 = Some e1' ∧ e1' ≤ e0 ∧ e1' ≤ Sprint.startDate s
                   ∧ (e1' = e0 ∨ e1' = Sprint.startDate s)) as (e1' & -> & ? & ? & He1).
    { subst e1. case_bool_decide; eexists; split; try done; lia. }
    assert (∃ l1', l1 = Some l1' ∧ l0 ≤ l1' ∧ Sprint.endDate s ≤ l1'
                   ∧ (l1' = l0 ∨ l1' = Sprint.endDate s)) as (l1' & -> & ? & ? & Hl1).
    { subst l1. case_bool_decide; eexists; split; try done; lia. }
    destruct (IH e1' l1') as (e & l & Hfold & ? & ? & He & Hl & Hmin & Hmax).
    exists e, l. split; [done|]. split; [lia|]. split; [lia|].
    split; [|split; [|split]].
    + destruct He as [->|(s' & ? & ?)].
      * destruct He1 as [->| ->]; [by left|]. right. exists s. split; [left|done].
      * right. exists s'. split; [by right|done].
    + destruct Hl as [->|(s' & ? & ?)].
      * destruct Hl1 as [->| ->]; [by left|]. right. exists s. split; [left|done].
      * right. exists s'. split; [by right|done].
    + intros s' Hs'. apply elem_of_cons in Hs' as [->|Hs']; [lia|by apply Hmin].
    + intros s' Hs'. apply elem_of_cons in Hs' as [->|Hs']; [lia|by apply Hmax].
Qed.

(** The scan finds the earliest start and the latest end of a non-empty
    list of sprints. *)
Lemma span_spec (ps : list Sprint.t) :
  ps ≠ [] →
  ∃ e l, span ps = (Some e, Some l) ∧ isEarliestStart e ps ∧ isLatestEnd l ps.
Proof.
  destruct ps as [|s ps]; [done|]. intros _. unfold span. simpl.
  destruct (span_from ps (Sprint.startDate s) (Sprint.endDate s))
    as (e & l & Hfold & ? & ? & He & Hl & Hmin & Hmax).
  exists e, l. split; [exact Hfold|]. split; split.
  - destruct He as [->|(s' & ? & ?)]; [exists s|exists s']; split; try done;
      [left|by right].
  - intros s' Hs'. apply elem_of_cons in Hs' as [->|Hs']; [lia|by apply Hmin].
  - destruct Hl as [->|(s' & ? & ?)]; [exists s|exists s']; split; try done;
      [left|by right].
  - intros s' Hs'. apply elem_of_cons in Hs' as [->|Hs']; [lia|by apply Hmax].
Qed.

(** *** Sums of story points *)

Lemma sumPoints_total (a : Q) (ts : list Task.t) :
  (sumPoints a ts == a + total ts)%Q.
Proof.
  revert a. induction ts as [|t ts IH]; intros a; simpl.
  - unfold sumPoints. simpl. ring.
  - unfold sumPoints in *. simpl. rewrite IH. ring.
Qed.

Lemma hasPoints_positive (t : Task.t) : hasPoints t = true → (0 < pointsOf t)%Q.
Proof.
  unfold hasPoints, pointsOf, Qpositive.
  destruct (Task.storyPoints t) as [q|]; simpl; [|done].
  intros Hq. apply negb_true_iff in Hq. apply Qnot_le_lt. intros Hle.
  apply Qle_bool_iff in Hle. congruence.
Qed.

Lemma total_nonneg (ts : list Task.t) :
  Forall (λ t, hasPoints t = true) ts → (0 <= total ts)%Q.
Proof.
  induction 1 as [|t ts Ht _ IH]; simpl; [lra|].
  apply hasPoints_positive in Ht. lra.
Qed.

Lemma total_positive (ts : list Task.t) :
  Forall (λ t, hasPoints t = true) ts → ts ≠ [] → (0 < total ts)%Q.
Proof.
  intros Hall Hne. destruct Hall as [|t ts Ht Hts]; [done|]. simpl.
  apply hasPoints_positive in Ht. apply total_nonneg in Hts. lra.
Qed.

Lemma total_filter_split (P1 P2 P : Task.t → Prop)
    `{!∀ t, Decision (P1 t)} `{!∀ t, Decision (P2 t)} `{!∀ t, Decision (P t)}
    (ts : list Task.t) :
  (∀ t, P t ↔ P1 t ∨ P2 t) → (∀ t, P1 t → P2 t → False) →
  (total (filter P ts) == total (filter P1 ts) + total (filter P2 ts))%Q.
Proof.
  intros Hor Hdisj. induction ts as [|t ts IH]; simpl; [ring|].
  rewrite !filter_cons.
  destruct (decide (P t)) as [HP|HP], (decide (P1 t)) as [HP1|HP1],
    (decide (P2 t)) as [HP2|HP2]; simpl; rewrite ?IH; try ring;
    exfalso; specialize (Hor t); specialize (Hdisj t); tauto.
Qed.

(** *** Grouping the completed tasks by date *)

Lemma groupByCompletionDate_snoc (ts : list Task.t) (t : Task.t) :
  groupByCompletionDate (ts ++ [t]) = groupStep (groupByCompletionDate ts) t.
Proof. unfold groupByCompletionDate. by rewrite fold_left_app. Qed.

(** The bucket of a date holds the done tasks completed on that date, in
    their order; a date without any has no bucket. *)
Lemma groupByCompletionDate_lookup (ts : list Task.t) (d : Z) :
  groupByCompletionDate ts !! d
  = if decide (filter (doneOn d) ts = []) then None else Some (filter (doneOn d) ts).
Proof.
  induction ts as [|t ts IH] using rev_ind; [done|].
  rewrite groupByCompletionDate_snoc, filter_app, filter_cons, filter_nil.
  unfold groupStep.
  destruct (decide (doneOn d t)) as [[Hdone Hcd]|Hnot].
  - rewrite bool_decide_eq_true_2 by done. rewrite Hcd.
    rewrite decide_False by (intros Heq; by apply app_eq_nil in Heq as [_ ?]).
    rewrite IH. case_decide as Hnil.
    + rewrite lookup_insert_eq, lookup_insert_eq. by rewrite Hnil.
    + rewrite IH. by rewrite lookup_insert_eq.
  - rewrite app_nil_r. case_bool_decide as Hdone; [|done].
    destruct (Task.completionDate t) as [c|] eqn:Hcd; [|done].
    assert (c ≠ d) as Hne. { intros ->. apply Hnot. by split. }
    destruct (groupByCompletionDate ts !! c) eqn:Hc.
    + rewrite Hc. by rewrite lookup_insert_ne.
    + rewrite lookup_insert_eq. by rewrite !lookup_insert_ne.
Qed.

(** The inner scan over [n] days from [e] adds up the points of the done
    tasks completed on those days. *)
Lemma scan_total (ts : list Task.t) (e : Z) (n : nat) :
  (fold_left
     (λ completedPoints (j : nat),
        match groupByCompletionDate ts !! (e + Z.of_nat j)%Z with
        | Some tasksCompletedOnDate => sumPoints completedPoints tasksCompletedOnDate
        | None => completedPoints
        end)
     (seq 0 n) 0%Q
   == total (filter (doneWithin e (e + Z.of_nat n - 1)%Z) ts))%Q.
Proof.
  induction n as [|n IH].
  - simpl. replace (filter _ ts) with (@nil Task.t); [done|].
    symmetry. apply filter_none. intros t _ [_ (c & _ & ?)]. lia.
  - rewrite seq_S, fold_left_app. simpl.
    pose proof (total_filter_split (doneWithin e (e + Z.of_nat n - 1))
                  (doneOn (e + Z.of_nat n))
                  (doneWithin e (e + Z.of_nat (S n) - 1)) ts) as Hsplit.
    rewrite Hsplit; clear Hsplit.
    + rewrite groupByCompletionDate_lookup. case_decide as Hnil.
      * rewrite Hnil, IH. change (total []) with 0%Q. ring.
      * rewrite sumPoints_total, IH. ring.
    + intros t. unfold doneWithin, doneOn. split.
      * intros [Hd (c & Hc & ?)].
        destruct (decide (c = e + Z.of_nat n)) as [->|]; [by right|].
        left. split; [done|]. exists c. split; [done|lia].
      * intros [[Hd (c & Hc & ?)]|[Hd Hc]]; (split; [done|]).
        -- exists c. split; [done|lia].
        -- eexists. split; [done|lia].
    + intros t [_ (c & Hc & ?)] [_ Hc']. rewrite Hc in Hc'. simplify_eq. lia.
Qed.

Lemma completedUpTo_total (ts : list Task.t) (e : Z) (i : nat) :
  (completedUpTo (groupByCompletionDate ts) e i
   == total (filter (doneWithin e (e + Z.of_nat i)%Z) ts))%Q.
Proof.
  unfold completedUpTo. rewrite scan_total.
  replace (e + Z.of_nat (S i) - 1) with (e + Z.of_nat i) by lia. reflexivity.
Qed.


(** *** Rounding *)

Lemma Math_round_mono (x y : Q) : (x <= y)%Q → Math_round x ≤ Math_round y.
Proof. intros Hxy. unfold Math_round. apply Qfloor_resp_le. lra. Qed.





Lemma Math_max_mono (x y : Q) : (x <= y)%Q → (Math_max 0 x <= Math_max 0 y)%Q.
Proof. intros Hxy. unfold Math_max. by apply Q.max_le_compat_l. Qed.

(** *** The tasks the engine gathers *)

Lemma gatherTasks_bind (tasks : list Task.t) (ps : list Sprint.t) :
  gatherTasks tasks ps = ps ≫= (λ s, getTasksBySprint tasks (Sprint.id s)).
Proof.
  unfold gatherTasks.
  assert (∀ acc, fold_left (λ projectTasks sprint,
                    projectTasks ++ getTasksBySprint tasks (Sprint.id sprint)) ps acc
                 = acc ++ (ps ≫= (λ s, getTasksBySprint tasks (Sprint.id s)))) as Hgen.
  { induction ps as [|s ps IH]; intros acc; simpl.
    - by rewrite app_nil_r.
    - rewrite IH. by rewrite <- app_assoc. }
  apply (Hgen []).
Qed.


(** Tasks outside every sprint of the list do not matter. *)
Lemma gatherTasks_only_sprints (P : Task.t → Prop) `{!∀ t, Decision (P t)}
    (tasks : list Task.t) (ps : list Sprint.t) :
  (∀ t s, t ∈ tasks → s ∈ ps → Task.sprintId t = Sprint.id s → P t) →
  gatherTasks (filter P tasks) ps = gatherTasks tasks ps.
Proof.
  intros Hkeep. rewrite !gatherTasks_bind.
  induction ps as [|s ps IH]; [done|]. rewrite !bind_cons.
  rewrite IH by (intros t s' ? ?; apply Hkeep; [done|by right]). f_equal.
  unfold getTasksBySprint. rewrite list_filter_filter.
  apply filter_agree. intros t Ht. split; [tauto|].
  intros Hid. split; [done|]. apply (Hkeep t s); [done|left|done].
Qed.

Lemma tasksWithPoints_hasPoints sprints tasks projectId :
  Forall (λ t, hasPoints t = true) (tasksWithPoints sprints tasks projectId).
Proof.
  apply Forall_forall. intros t Ht. unfold tasksWithPoints in Ht.
  by apply list_elem_of_filter in Ht as [? _].
Qed.

Lemma totalStoryPoints_total sprints tasks projectId :
  (totalStoryPoints sprints tasks projectId
   == total (tasksWithPoints sprints tasks projectId))%Q.
Proof. unfold totalStoryPoints. rewrite sumPoints_total. ring. Qed.

Lemma totalStoryPoints_positive sprints tasks projectId :
  tasksWithPoints sprints tasks projectId ≠ [] →
  (0 < totalStoryPoints sprints tasks projectId)%Q.
Proof.
  intros Hne. rewrite totalStoryPoints_total.
  apply total_positive; [apply tasksWithPoints_hasPoints|done].
Qed.


Section Series.
Variable format : Z → string.
Variable today : Z.

(** The series of a project with estimated sprint tasks: one point per
    day of the time frame, in order; the de-duplicating map never meets a
    date twice. *)
Lemma generateBurndownData_series sprints tasks projectId :
  getSprintsByProject sprints projectId ≠ [] →
  tasksWithPoints sprints tasks projectId ≠ [] →
  ∃ e l,
    span (getSprintsByProject sprints projectId) = (Some e, Some l)
    ∧ isEarliestStart e (getSprintsByProject sprints projectId)
    ∧ isLatestEnd l (getSprintsByProject sprints projectId)
    ∧ generateBurndownData format today sprints tasks projectId
      = pointAt format today
          (totalStoryPoints sprints tasks projectId)
          (totalStoryPoints sprints tasks projectId / inject_Z (timeframeDays e l))%Q
          (groupByCompletionDate (tasksWithPoints sprints tasks projectId)) e
        <$> seq 0 (Z.to_nat (timeframeDays e l)).
Proof.
  intros Hps Htwp.
  destruct (span_spec _ Hps) as (e & l & Hspan & He & Hl).
  exists e, l. split; [done|]. split; [done|]. split; [done|].
  pose proof (totalStoryPoints_positive _ _ _ Htwp) as Hpos.
  unfold generateBurndownData.
  fold (tasksWithPoints sprints tasks projectId).
  rewrite bool_decide_eq_false_2 by (by destruct (getSprintsByProject _ _)).
  cbv zeta.
  rewrite bool_decide_eq_false_2 by (by destruct (tasksWithPoints _ _ _)).
  rewrite Hspan.
  fold (totalStoryPoints sprints tasks projectId).
  destruct (Qeq_bool (totalStoryPoints sprints tasks projectId) 0) eqn:Hzero.
  { apply Qeq_bool_eq in Hzero. lra. }
  fold (timeframeDays e l).
  rewrite (JsMap_fill
             (λ i, BurndownDataPoint.date
                     (pointAt format today (totalStoryPoints sprints tasks projectId)
                        (totalStoryPoints sprints tasks projectId
                         / inject_Z (timeframeDays e l))%Q
                        (groupByCompletionDate (tasksWithPoints sprints tasks projectId))
                        e i))
             (pointAt format today (totalStoryPoints sprints tasks projectId)
                        (totalStoryPoints sprints tasks projectId
                         / inject_Z (timeframeDays e l))%Q
                        (groupByCompletionDate (tasksWithPoints sprints tasks projectId))
                        e)).
  - unfold JsMap.values. by rewrite <- list_fmap_compose.
  - intros i j. simpl. lia.
Qed.
End Series.

Section Claims.
Variable format : Z → string.
Variable today : Z.

Lemma series_nonempty_inv sprints tasks projectId :
  generateBurndownData format today sprints tasks projectId ≠ [] →
  getSprintsByProject sprints projectId ≠ []
  ∧ tasksWithPoints sprints tasks projectId ≠ [].
Proof.
  unfold generateBurndownData, tasksWithPoints. cbv zeta.
  intros Hne. split; intros Hnil; rewrite Hnil in Hne; simpl in Hne; [done|].
  by case_bool_decide.
Qed.

Lemma series_lookup sprints tasks projectId e l i p :
  generateBurndownData format today sprints tasks projectId
  = pointAt format today
      (totalStoryPoints sprints tasks projectId)
      (totalStoryPoints sprints tasks projectId / inject_Z (timeframeDays e l))%Q
      (groupByCompletionDate (tasksWithPoints sprints tasks projectId)) e
    <$> seq 0 (Z.to_nat (timeframeDays e l)) →
  generateBurndownData format today sprints tasks projectId !! i = Some p →
  (i < Z.to_nat (timeframeDays e l))%nat
  ∧ p = pointAt format today
          (totalStoryPoints sprints tasks projectId)
          (totalStoryPoints sprints tasks projectId / inject_Z (timeframeDays e l))%Q
          (groupByCompletionDate (tasksWithPoints sprints tasks projectId)) e i.
Proof.
  intros -> Hi. apply list_lookup_fmap_Some in Hi as (j & -> & Hj).
  apply lookup_seq in Hj as [-> ?]. done.
Qed.






(** C10. The burndown only sees tasks through the project's sprints:
    provided no sprint of the project has the empty id (the sentinel of
    "not in a sprint"), dropping every task whose [sprintId] is empty
    changes neither the total story points nor any point of the series,
    whatever those tasks' points, status and completion date. *)
Theorem backlog_tasks_do_not_count sprints tasks projectId :
  (∀ s, s ∈ sprints → Sprint.projectId s = projectId → Sprint.id s ≠ "") →
  totalStoryPoints sprints tasks projectId
  = totalStoryPoints sprints (filter (λ t, Task.sprintId t ≠ "") tasks) projectId
  ∧ generateBurndownData format today sprints tasks projectId
    = generateBurndownData format today sprints
        (filter (λ t, Task.sprintId t ≠ "") tasks) projectId.
Proof.
  intros Hids.
  assert (gatherTasks (filter (λ t, Task.sprintId t ≠ "") tasks)
            (getSprintsByProject sprints projectId)
          = gatherTasks tasks (getSprintsByProject sprints projectId)) as Hgather.
  { apply gatherTasks_only_sprints. intros t s _ Hs Hid.
    apply list_elem_of_filter in Hs as [Hp Hs]. rewrite Hid. by apply Hids. }
  unfold totalStoryPoints, tasksWithPoints, generateBurndownData.
  by rewrite Hgather.
Qed.
End Claims.




(** Witness of C10: a done backlog task of 8 points, completed inside the
    span, leaves the series of the sample project as it is. *)
Lemma backlog_tasks_do_not_count_witness :
  totalStoryPoints [Sample.sprint1] [Sample.taskA; Sample.taskBacklog; Sample.taskB] "alpha"
  = totalStoryPoints [Sample.sprint1] [Sample.taskA; Sample.taskB] "alpha"
  ∧ generateBurndownData Sample.noFormat 104 [Sample.sprint1]
      [Sample.taskA; Sample.taskBacklog; Sample.taskB] "alpha"
    = generateBurndownData Sample.noFormat 104 [Sample.sprint1]
        [Sample.taskA; Sample.taskB] "alpha".
Proof.
  apply (backlog_tasks_do_not_count Sample.noFormat 104 [Sample.sprint1]
           [Sample.taskA; Sample.taskBacklog; Sample.taskB] "alpha").
  intros s Hs _. apply list_elem_of_singleton in Hs as ->. discriminate.
Defined.

End BurndownProofs.

(** * Facts about the store *)

Module StoreProofs.

(** *** Running the combinators *)

Lemma run_bind {A B} (m : Async A) (f : A → Async B) (w : World) :
  (m ≫= f) w
  = match m w with
    | (Returned a, w') => f a w'
    | (Raised, w') => (Raised, w')
    end.
Proof. reflexivity. Qed.

Lemma run_ret {A} (a : A) (w : World) : (mret a : Async A) w = (Returned a, w).
Proof. reflexivity. Qed.

(** *** Frame rules *)

Section Keeps.
Context {B : Type} (view : Store → B).

Lemma keeps_ret {A} (a : A) : keeps view (mret a : Async A).
Proof. by intros w. Qed.

Lemma keeps_throw {A} : keeps view (@throw A).
Proof. by intros w. Qed.

Lemma keeps_getWorld : keeps view getWorld.
Proof. by intros w. Qed.

Lemma keeps_toast t : keeps view (toast t).
Proof. by intros w. Qed.

Lemma keeps_delay ms : keeps view (delay ms).
Proof. by intros w. Qed.

Lemma keeps_setFetchTimeIsLocal b : keeps view (setFetchTimeIsLocal b).
Proof. by intros w. Qed.

Lemma keeps_await {A} (call : nat → Reply A) : keeps view (await call).
Proof. intros w. unfold await. by destruct (call (tick w)). Qed.

Lemma keeps_throwIf b : keeps view (throwIf b).
Proof. by destruct b. Qed.

Lemma keeps_update (f : Store → Store) :
  (∀ st, view (f st) = view st) → keeps view (update f).
Proof. intros Hf w. apply Hf. Qed.

Lemma keeps_bind {A C} (m : Async A) (f : A → Async C) :
  keeps view m → (∀ a, keeps view (f a)) → keeps view (m ≫= f).
Proof.
  intros Hm Hf w. rewrite run_bind. specialize (Hm w).
  destruct (m w) as [[a|] w']; simpl in *; [|done].
  by rewrite Hf.
Qed.

Lemma keeps_tryCatch {A} (body handler : Async A) :
  keeps view body → keeps view handler → keeps view (tryCatch body handler).
Proof.
  intros Hb Hh w. unfold tryCatch. specialize (Hb w).
  destruct (body w) as [[a|] w']; simpl in *; [done|].
  by rewrite Hh.
Qed.

Lemma keeps_tryCatchFinally (body handler fin : Async unit) :
  keeps view body → keeps view handler → keeps view fin →
  keeps view (tryCatchFinally body handler fin).
Proof.
  intros Hb Hh Hf w. unfold tryCatchFinally.
  pose proof (keeps_tryCatch body handler Hb Hh w) as Htc.
  destruct (tryCatch body handler w) as [[a|] w']; simpl in *.
  - by rewrite Hf.
  - specialize (Hf w'). destruct (fin w') as [o w'']. simpl in *. congruence.
Qed.

Lemma keeps_forEach {A} (xs : list A) (body : A → Async unit) :
  (∀ x, keeps view (body x)) → keeps view (forEach xs body).
Proof.
  intros Hbody. induction xs as [|x xs IH]; simpl.
  - apply keeps_ret.
  - apply keeps_bind; [apply Hbody|]. by intros _.
Qed.
End Keeps.

(** *** Totality rules *)

Lemma neverRaises_ret {A} (a : A) : neverRaises (mret a : Async A).
Proof. intros w. by exists a, w. Qed.

Lemma neverRaises_getWorld : neverRaises getWorld.
Proof. intros w. by exists w, w. Qed.

Lemma neverRaises_update f : neverRaises (update f).
Proof. intros w. by eexists _, _. Qed.

Lemma neverRaises_toast t : neverRaises (toast t).
Proof. intros w. by eexists _, _. Qed.

Lemma neverRaises_delay ms : neverRaises (delay ms).
Proof. intros w. by eexists _, _. Qed.

Lemma neverRaises_setFetchTimeIsLocal b : neverRaises (setFetchTimeIsLocal b).
Proof. intros w. by eexists _, _. Qed.

Lemma neverRaises_bind {A C} (m : Async A) (f : A → Async C) :
  neverRaises m → (∀ a, neverRaises (f a)) → neverRaises (m ≫= f).
Proof.
  intros Hm Hf w. rewrite run_bind.
  destruct (Hm w) as (a & w' & ->). apply Hf.
Qed.

(** A [try] whose handler never throws never throws. *)
Lemma neverRaises_tryCatch {A} (body handler : Async A) :
  neverRaises handler → neverRaises (tryCatch body handler).
Proof.
  intros Hh w. unfold tryCatch.
  destruct (body w) as [[a|] w']; [by eexists _, _|apply Hh].
Qed.

Lemma neverRaises_tryCatchFinally (body handler fin : Async unit) :
  neverRaises handler → neverRaises fin →
  neverRaises (tryCatchFinally body handler fin).
Proof.
  intros Hh Hf w. unfold tryCatchFinally.
  destruct (neverRaises_tryCatch body handler Hh w) as (a & w' & ->). apply Hf.
Qed.

Lemma neverRaises_forEach {A} (xs : list A) (body : A → Async unit) :
  (∀ x, neverRaises (body x)) → neverRaises (forEach xs body).
Proof.
  intros Hbody. induction xs as [|x xs IH]; simpl.
  - apply neverRaises_ret.
  - apply neverRaises_bind; [apply Hbody|]. by intros _.
Qed.

(** Stepping through a handler. *)
Ltac keeps_step :=
  lazymatch goal with
  | |- keeps _ (mret _) => apply keeps_ret
  | |- keeps _ throw => apply keeps_throw
  | |- keeps _ getWorld => apply keeps_getWorld
  | |- keeps _ (toast _) => apply keeps_toast
  | |- keeps _ (delay _) => apply keeps_delay
  | |- keeps _ (setFetchTimeIsLocal _) => apply keeps_setFetchTimeIsLocal
  | |- keeps _ (await _) => apply keeps_await
  | |- keeps _ (throwIf _) => apply keeps_throwIf
  | |- keeps _ (update _) => apply keeps_update; intros ?; reflexivity
  | |- keeps _ (_ ≫= _) => apply keeps_bind; [|intros ?]
  | |- keeps _ (tryCatch _ _) => apply keeps_tryCatch
  | |- keeps _ (tryCatchFinally _ _ _) => apply keeps_tryCatchFinally
  | |- keeps _ (forEach _ _) => apply keeps_forEach; intros ?
  | |- keeps _ (if ?b then _ else _) => destruct b
  | |- keeps _ (match ?x with _ => _ end) => destruct x
  end.

Ltac total_step :=
  lazymatch goal with
  | |- neverRaises (mret _) => apply neverRaises_ret
  | |- neverRaises getWorld => apply neverRaises_getWorld
  | |- neverRaises (toast _) => apply neverRaises_toast
  | |- neverRaises (delay _) => apply neverRaises_delay
  | |- neverRaises (setFetchTimeIsLocal _) => apply neverRaises_setFetchTimeIsLocal
  | |- neverRaises (update _) => apply neverRaises_update
  | |- neverRaises (_ ≫= _) => apply neverRaises_bind; [|intros ?]
  | |- neverRaises (tryCatch _ _) => apply neverRaises_tryCatch
  | |- neverRaises (tryCatchFinally _ _ _) => apply neverRaises_tryCatchFinally
  | |- neverRaises (forEach _ _) => apply neverRaises_forEach; intros ?
  | |- neverRaises (if ?b then _ else _) => destruct b
  | |- neverRaises (match ?x with _ => _ end) => destruct x
  end.

Implicit Types (user : option string) (gateway : Gateway) (clock : Clock).
Implicit Types (snap : Store).

(** *** The fetch operations never throw *)

Lemma updateFetchTime_total clock key : neverRaises (updateFetchTime clock key).
Proof. unfold updateFetchTime. repeat total_step. Qed.

Lemma markFetchError_total key : neverRaises (markFetchError key).
Proof. unfold markFetchError. total_step. Qed.

Lemma fetchTasksBySprint_total user gateway clock snap sprintId forceRefresh :
  neverRaises (fetchTasksBySprint user gateway clock snap sprintId forceRefresh).
Proof.
  unfold fetchTasksBySprint. repeat total_step. apply markFetchError_total.
Qed.

Lemma fetchBacklogTasks_total user gateway clock snap projectId forceRefresh :
  neverRaises (fetchBacklogTasks user gateway clock snap projectId forceRefresh).
Proof.
  unfold fetchBacklogTasks. repeat total_step. apply markFetchError_total.
Qed.

Lemma fetchSprints_total user gateway clock snap projectId forceRefresh :
  neverRaises (fetchSprints user gateway clock snap projectId forceRefresh).
Proof.
  unfold fetchSprints. repeat total_step. apply markFetchError_total.
Qed.

Lemma fetchProjects_total user gateway clock snap : neverRaises (fetchProjects user gateway clock snap).
Proof.
  unfold fetchProjects. repeat total_step. apply markFetchError_total.
Qed.

Lemma fetchCollaborativeProjects_total user gateway clock snap :
  neverRaises (fetchCollaborativeProjects user gateway clock snap).
Proof.
  unfold fetchCollaborativeProjects. repeat total_step. apply markFetchError_total.
Qed.

Lemma runFetch_total user gateway clock snap op : neverRaises (runFetch user gateway clock snap op).
Proof.
  destruct op; simpl;
    auto using fetchProjects_total, fetchSprints_total, fetchTasksBySprint_total,
      fetchBacklogTasks_total, fetchCollaborativeProjects_total.
Qed.

(** *** What the fetch operations leave alone *)

Lemma fetchTasksBySprint_keeps_sprints user gateway clock snap sprintId forceRefresh :
  keeps (λ st, (projects st, sprints st, burndownData st))
        (fetchTasksBySprint user gateway clock snap sprintId forceRefresh).
Proof. unfold fetchTasksBySprint, updateFetchTime, markFetchError. repeat keeps_step. Qed.






(** A handler that never throws and keeps a view returns, in a world with
    that view unchanged. *)
Lemma run_total_keeps {A B} (view : Store → B) (m : Async A) (w : World) :
  neverRaises m → keeps view m →
  ∃ a w', m w = (Returned a, w') ∧ view (store w') = view (store w).
Proof.
  intros Htotal Hkeeps. destruct (Htotal w) as (a & w' & Hrun).
  exists a, w'. split; [done|]. specialize (Hkeeps w). by rewrite Hrun in Hkeeps.
Qed.

Lemma getSprintsByProject_app l1 l2 projectId :
  getSprintsByProject (l1 ++ l2) projectId
  = getSprintsByProject l1 projectId ++ getSprintsByProject l2 projectId.
Proof. apply filter_app. Qed.

Lemma getSprintsByProject_others l projectId other :
  other ≠ projectId →
  getSprintsByProject (filter (λ s, Sprint.projectId s ≠ projectId) l) other
  = getSprintsByProject l other.
Proof.
  intros Hne. unfold getSprintsByProject. rewrite list_filter_filter.
  apply filter_agree. intros s _. split; [tauto|]. intros ->. by split.
Qed.

Lemma getSprintsByProject_removed l projectId :
  getSprintsByProject (filter (λ s, Sprint.projectId s ≠ projectId) l) projectId = [].
Proof.
  unfold getSprintsByProject. rewrite list_filter_filter.
  apply filter_none. intros s _ [? ?]. done.
Qed.

Lemma getSprintsByProject_rows rows projectId :
  Forall (λ r, SprintRow.project_id r = projectId) rows →
  getSprintsByProject (formatSprint <$> rows) projectId = formatSprint <$> rows
  ∧ ∀ other, other ≠ projectId → getSprintsByProject (formatSprint <$> rows) other = [].
Proof.
  intros Hrows. unfold getSprintsByProject. split.
  - induction Hrows as [|r rows Hr _ IH]; [done|].
    rewrite fmap_cons, filter_cons_True by done. by rewrite IH.
  - intros other Hne. apply filter_none. intros s Hs.
    apply list_elem_of_fmap in Hs as (r & -> & Hr).
    apply (proj1 (Forall_forall _ _) Hrows) in Hr. simpl. congruence.
Qed.

(** *** Replacing the sprints of a project *)

(** C4. When the sprint read for project [projectId] is issued and
    resolves without error to [rows], the operation returns and the sprint
    cache is the old one without the sprints of [projectId], followed by
    the formatted rows. So, the rows being of that project as the query
    asks, the cached sprints of [projectId] are exactly the fetched ones and
    the cached sprints of every other project are as before; and zero rows
    leave the project without cached sprints and the other projects
    untouched. *)
Theorem fetchSprints_replaces_project_scope
    user gateway clock snap (w : World) projectId forceRefresh userId rows :
  user = Some userId →
  fetchSprints_cached snap (Date_now clock (tick w)) projectId forceRefresh = false →
  select_sprints gateway (tick w) projectId = Resolves false (Some rows) →
  ∃ w', fetchSprints user gateway clock snap projectId forceRefresh w = (Returned tt, w')
    ∧ sprints (store w')
      = filter (λ s, Sprint.projectId s ≠ projectId) (sprints (store w))
        ++ (formatSprint <$> rows)
    ∧ (Forall (λ r, SprintRow.project_id r = projectId) rows →
       getSprintsByProject (sprints (store w')) projectId = formatSprint <$> rows
       ∧ ∀ other, other ≠ projectId →
           getSprintsByProject (sprints (store w')) other
           = getSprintsByProject (sprints (store w)) other)
    ∧ (rows = [] →
       getSprintsByProject (sprints (store w')) projectId = []
       ∧ ∀ other, other ≠ projectId →
           getSprintsByProject (sprints (store w')) other
           = getSprintsByProject (sprints (store w)) other).
Proof.
  intros -> Hcached Hreply.
  unfold fetchSprints. rewrite run_bind. change (getWorld w) with (Returned w, w).
  cbv beta iota. rewrite Hcached. unfold tryCatch.
  rewrite run_bind. unfold await at 1. rewrite Hreply. cbv beta iota zeta.
  rewrite run_bind. change (throwIf false) with (mret tt : Async unit).
  rewrite run_ret. cbv beta iota. rewrite run_bind.
  unfold update at 1. cbv beta iota. cbn [store tick toasts fetchTimeIsLocal].
  match goal with |- context [(?m ≫= ?f) ?w1] =>
    destruct (run_total_keeps sprints (m ≫= f) w1) as ([] & w' & Hrun & Hkeep)
  end.
  { total_step; [apply updateFetchTime_total|]. total_step.
    total_step; [apply fetchTasksBySprint_total|]. total_step. }
  { unfold updateFetchTime. repeat keeps_step.
    intros w1.
    pose proof (fetchTasksBySprint_keeps_sprints (Some userId) gateway clock snap
                  (Sprint.id x) forceRefresh w1) as [= _ Hs _].
    exact Hs. }
  rewrite Hrun. exists w'. split; [done|].
  rewrite Hkeep. cbn [store sprints setSprints].
  split; [done|].
  assert (Forall (λ r, SprintRow.project_id r = projectId) rows →
          getSprintsByProject
            (filter (λ s, Sprint.projectId s ≠ projectId) (sprints (store w))
             ++ (formatSprint <$> rows)) projectId = formatSprint <$> rows
          ∧ ∀ other, other ≠ projectId →
              getSprintsByProject
                (filter (λ s, Sprint.projectId s ≠ projectId) (sprints (store w))
                 ++ (formatSprint <$> rows)) other
              = getSprintsByProject (sprints (store w)) other) as Hscope.
  { intros Hrows.
    destruct (getSprintsByProject_rows rows projectId Hrows) as [Hmine Hothers]. split.
    - by rewrite getSprintsByProject_app, getSprintsByProject_removed, Hmine.
    - intros other Hne.
      by rewrite getSprintsByProject_app, getSprintsByProject_others, Hothers, app_nil_r. }
  split; [exact Hscope|].
  intros ->. by apply Hscope.
Qed.

(** *** The freshness policy *)

(** The guards refuse the cache exactly on a stale key or an empty scope. *)
Lemma usesCache_isStale snap now key scopeIsCached :
  usesCache snap now key scopeIsCached
  = negb (isStale snap now key defaultMaxAge) && scopeIsCached.
Proof.
  unfold usesCache, isStale.
  by destruct (shouldRefetch _ _ _ _), scopeIsCached, (errored _ _).
Qed.

Lemma errored_markFetchErrorAt key st :
  errored (fetchErrors (markFetchErrorAt key st)) key = true.
Proof. unfold errored, markFetchErrorAt. simpl. by rewrite lookup_insert_eq. Qed.

(** C2 (as amended). A key is treated as stale for the age [maxAge]
    whenever it has no fetch timestamp and [maxAge] is less than the
    current time in milliseconds (a missing timestamp is read as 0), or
    more than [maxAge] milliseconds have passed since its last successful
    fetch, or it is flagged as errored, or [markFetchError] has just been
    called on it, however recent the [updateFetchTime] before. With the
    default age the fetch guards then refuse the cache. *)
Theorem stale_keys_are_refetched snap (now : Z) (key : string) (maxAge : Z) :
  (lastFetchTime snap !! key = None ∧ (maxAge < now)%Z)
  ∨ (∃ last, lastFetchTime snap !! key = Some last ∧ (now - last > maxAge)%Z)
  ∨ errored (fetchErrors snap) key = true
  ∨ (∃ st now0, snap = markFetchErrorAt key (updateFetchTimeAt now0 key st)) →
  isStale snap now key maxAge = true
  ∧ (maxAge = defaultMaxAge →
     (∀ scopeIsCached, usesCache snap now key scopeIsCached = false)
     ∧ ∀ projectId forceRefresh,
         key = sprintsKey projectId →
         fetchSprints_cached snap now projectId forceRefresh = false).
Proof.
  intros Hstale.
  assert (isStale snap now key maxAge = true) as His.
  { unfold isStale, shouldRefetch.
    destruct Hstale as [[Hnone Hlt]|[(last & Hlast & Hgt)|[Herr|(st & now0 & ->)]]].
    - rewrite Hnone. simpl. rewrite bool_decide_eq_true_2 by lia. done.
    - rewrite Hlast. simpl. rewrite bool_decide_eq_true_2 by lia. done.
    - rewrite Herr. apply orb_true_r.
    - rewrite errored_markFetchErrorAt. apply orb_true_r. }
  split; [done|]. intros ->.
  assert (∀ scopeIsCached, usesCache snap now key scopeIsCached = false) as Huses.
  { intros c. by rewrite usesCache_isStale, His. }
  split; [done|]. intros projectId forceRefresh ->.
  unfold fetchSprints_cached. rewrite Huses. apply andb_false_r.
Qed.

(** *** Failed reads *)

Lemma fetchTasksBySprint_failure user gateway clock snap w sprintId forceRefresh userId :
  user = Some userId →
  fetchTasksBySprint_cached snap (Date_now clock (tick w)) sprintId forceRefresh = false →
  failed (select_tasks_by_sprint gateway (tick w) sprintId) = true →
  fetchTasksBySprint user gateway clock snap sprintId forceRefresh w
  = (Returned tt,
     mkWorld (markFetchErrorAt (tasksKey sprintId) (store w))
             (S (tick w)) (toasts w) (fetchTimeIsLocal w)).
Proof.
  intros -> Hcached Hfail. unfold fetchTasksBySprint. rewrite run_bind.
  change (getWorld w) with (Returned w, w). cbv beta iota. rewrite Hcached.
  unfold tryCatch. rewrite run_bind. unfold await.
  destruct (select_tasks_by_sprint _ _ _) as [|[] d]; try discriminate; reflexivity.
Qed.

Lemma fetchBacklogTasks_failure user gateway clock snap w projectId forceRefresh userId :
  user = Some userId →
  fetchBacklogTasks_cached snap (Date_now clock (tick w)) projectId forceRefresh = false →
  failed (select_backlog_tasks gateway (tick w) projectId) = true →
  fetchBacklogTasks user gateway clock snap projectId forceRefresh w
  = (Returned tt,
     mkWorld (markFetchErrorAt (backlogKey projectId) (store w))
             (S (tick w)) (toasts w) (fetchTimeIsLocal w)).
Proof.
  intros -> Hcached Hfail. unfold fetchBacklogTasks. rewrite run_bind.
  change (getWorld w) with (Returned w, w). cbv beta iota. rewrite Hcached.
  unfold tryCatch. rewrite run_bind. unfold await.
  destruct (select_backlog_tasks _ _ _) as [|[] d]; try discriminate; reflexivity.
Qed.

Lemma fetchSprints_failure user gateway clock snap w projectId forceRefresh userId :
  user = Some userId →
  fetchSprints_cached snap (Date_now clock (tick w)) projectId forceRefresh = false →
  failed (select_sprints gateway (tick w) projectId) = true →
  fetchSprints user gateway clock snap projectId forceRefresh w
  = (Returned tt,
     mkWorld (markFetchErrorAt (sprintsKey projectId) (store w))
             (S (tick w)) (toasts w) (fetchTimeIsLocal w)).
Proof.
  intros -> Hcached Hfail. unfold fetchSprints. rewrite run_bind.
  change (getWorld w) with (Returned w, w). cbv beta iota. rewrite Hcached.
  unfold tryCatch. rewrite run_bind. unfold await.
  destruct (select_sprints _ _ _) as [|[] d]; try discriminate; reflexivity.
Qed.

Lemma fetchProjects_failure user gateway clock snap w userId :
  user = Some userId →
  isLoading snap = false →
  fetchProjects_cached snap (Date_now clock (tick w)) = false →
  failed (select_projects gateway (tick w) userId) = true →
  fetchProjects user gateway clock snap w
  = (Returned tt,
     mkWorld (setIsLoading false
                (markFetchErrorAt "projects" (setIsLoading true (store w))))
             (S (tick w))
             (toasts w ++ [ToastError
                "Failed to load projects. Please try refreshing the page."])
             (fetchTimeIsLocal w)).
Proof.
  intros -> Hloading Hcached Hfail. unfold fetchProjects. rewrite Hloading.
  rewrite run_bind. change (getWorld w) with (Returned w, w). cbv beta iota.
  rewrite Hcached. rewrite run_bind. unfold update at 1. cbv beta iota.
  unfold tryCatchFinally, tryCatch. rewrite run_bind. unfold await.
  cbn [tick store toasts fetchTimeIsLocal].
  destruct (select_projects _ _ _) as [|[] d]; try discriminate; reflexivity.
Qed.

Lemma fetchCollaborativeProjects_failure user gateway clock snap w userId :
  user = Some userId →
  isLoading snap = false →
  fetchCollaborativeProjects_cached snap (Date_now clock (tick w)) = false →
  failed (select_collaborators gateway (tick w) userId) = true →
  fetchCollaborativeProjects user gateway clock snap w
  = (Returned tt,
     mkWorld (markFetchErrorAt "collaborations" (store w))
             (S (tick w))
             (toasts w ++ [ToastError
                "Failed to load collaborative projects. Please try refreshing the page."])
             (fetchTimeIsLocal w)).
Proof.
  intros -> Hloading Hcached Hfail. unfold fetchCollaborativeProjects. rewrite Hloading.
  rewrite run_bind. change (getWorld w) with (Returned w, w). cbv beta iota.
  rewrite Hcached. unfold tryCatch. rewrite run_bind. unfold await.
  destruct (select_collaborators _ _ _) as [|[] d]; try discriminate; reflexivity.
Qed.

(** C7. A fetch operation never throws; and when the remote read it
    issues fails (the call rejects or resolves with an error), it returns
    with the error flag of its key set and with the cached projects,
    sprints, tasks and burndown series, and the fetch times, as they
    were. *)
Theorem fetch_failures_are_swallowed user gateway clock snap (op : FetchOp) (w : World) :
  ∃ w', runFetch user gateway clock snap op w = (Returned tt, w')
    ∧ ∀ userId,
        user = Some userId →
        issuesRead snap op (Date_now clock (tick w)) = true →
        readFails gateway op userId (tick w) = true →
        cachedData (store w') = cachedData (store w)
        ∧ lastFetchTime (store w') = lastFetchTime (store w)
        ∧ fetchErrors (store w') = <[fetchKey op := true]> (fetchErrors (store w))
        ∧ errored (fetchErrors (store w')) (fetchKey op) = true.
Proof.
  destruct (runFetch_total user gateway clock snap op w) as ([] & w' & Hrun).
  exists w'. split; [done|]. intros userId Huser Hissue Hfail.
  assert (store w' = markFetchErrorAt (fetchKey op) (store w)
          ∨ store w' = setIsLoading false
                         (markFetchErrorAt (fetchKey op) (setIsLoading true (store w))))
    as Hstore.
  { destruct op as [|projectId f|sprintId f|projectId f|]; simpl in Hrun, Hissue, Hfail.
    - apply andb_true_iff in Hissue as [Hl Hc].
      apply negb_true_iff in Hl, Hc.
      rewrite (fetchProjects_failure _ _ _ _ _ userId) in Hrun by done.
      right. by injection Hrun as <-.
    - apply negb_true_iff in Hissue.
      rewrite (fetchSprints_failure _ _ _ _ _ _ _ userId) in Hrun by done.
      left. by injection Hrun as <-.
    - apply negb_true_iff in Hissue.
      rewrite (fetchTasksBySprint_failure _ _ _ _ _ _ _ userId) in Hrun by done.
      left. by injection Hrun as <-.
    - apply negb_true_iff in Hissue.
      rewrite (fetchBacklogTasks_failure _ _ _ _ _ _ _ userId) in Hrun by done.
      left. by injection Hrun as <-.
    - apply andb_true_iff in Hissue as [Hl Hc].
      apply negb_true_iff in Hl, Hc.
      rewrite (fetchCollaborativeProjects_failure _ _ _ _ _ userId) in Hrun by done.
      left. by injection Hrun as <-. }
  destruct Hstore as [-> | ->]; (split; [done|]; split; [done|]; split; [done|]);
    unfold errored; simpl; by rewrite lookup_insert_eq.
Qed.

(** C9. When the collaborators read resolves without error to zero rows,
    [fetchCollaborativeProjects] returns and leaves the whole store as it
    was: the cached projects, collaborative ones included, stay, and no
    fetch time is recorded for the collaborations key. *)
Theorem empty_collaborations_change_nothing user gateway clock snap (w : World) userId :
  user = Some userId →
  select_collaborators gateway (tick w) userId = Resolves false (Some []) →
  ∃ w', fetchCollaborativeProjects user gateway clock snap w = (Returned tt, w')
    ∧ store w' = store w
    ∧ projects (store w') = projects (store w)
    ∧ lastFetchTime (store w') !! "collaborations"
      = lastFetchTime (store w) !! "collaborations".
Proof.
  intros -> Hreply. unfold fetchCollaborativeProjects.
  destruct (isLoading snap); [by exists w|].
  rewrite run_bind. change (getWorld w) with (Returned w, w). cbv beta iota.
  destruct (fetchCollaborativeProjects_cached _ _); [by exists w|].
  unfold tryCatch. rewrite run_bind. unfold await. rewrite Hreply.
  by eexists.
Qed.

(** *** Updating a task *)

(** The refetches that follow a move between sprint and backlog never
    throw. *)
Lemma refetchMovedTask_total user gateway clock snap
    (existingTask : Task.t) (task : TaskPatch.t) :
  neverRaises (refetchMovedTask user gateway clock snap existingTask task).
Proof.
  unfold refetchMovedTask.
  destruct (Task.projectId existingTask) as [projectId|]; [|apply neverRaises_ret].
  destruct (truthy projectId); [|apply neverRaises_ret].
  apply neverRaises_bind; [|intros _; apply neverRaises_bind; [|intros _]].
  - destruct (truthy _); [apply fetchTasksBySprint_total|apply neverRaises_ret].
  - destruct (truthyOpt _); [apply fetchTasksBySprint_total|apply neverRaises_ret].
  - apply fetchBacklogTasks_total.
Qed.

(** What a successful [updateTask] returns, and what it leaves in the cache
    when the task does not move. *)
Lemma updateTask_returned user gateway clock snap id task (w : World) t' :
  (updateTask user gateway clock snap id task w).1 = Returned t' →
  ∃ existingTask,
    find (λ t, bool_decide (Task.id t = id)) (tasks snap) = Some existingTask
    ∧ (let updatedTask :=
         preserveCompletionDate existingTask task
           (mergeTask existingTask task (nowISO clock (S (tick w)))) in
       t' = if stampsCompletion existingTask task updatedTask
            then withCompletionDate updatedTask (Some (todayDate clock (S (tick w))))
            else updatedTask)
    ∧ (movesTask existingTask task = false →
       tasks (store (updateTask user gateway clock snap id task w).2)
       = (λ t, if bool_decide (Task.id t = id) then t' else t) <$> tasks (store w)).
Proof.
  destruct (updateTask user gateway clock snap id task w) as [out w'] eqn:Hrun.
  cbn [fst snd]. intros ->. unfold updateTask in Hrun.
  destruct user as [userId|]; [|done].
  unfold tryCatch in Hrun.
  destruct (find _ (tasks snap)) as [existingTask|]; [|done].
  exists existingTask. split; [done|]. cbv zeta.
  rewrite run_bind in Hrun. unfold await at 1 in Hrun.
  destruct (update_task gateway (tick w) id task) as [|error d]; [done|].
  cbv beta iota in Hrun. rewrite run_bind in Hrun.
  destruct error; [done|].
  change (throwIf false) with (mret tt : Async unit) in Hrun.
  rewrite run_ret in Hrun. cbv beta iota in Hrun.
  rewrite run_bind in Hrun. unfold getWorld at 1 in Hrun. cbv beta iota zeta in Hrun.
  cbn [tick] in Hrun.
  set (updatedTask := preserveCompletionDate existingTask task
                        (mergeTask existingTask task (nowISO clock (S (tick w))))) in *.
  rewrite run_bind in Hrun.
  destruct (stampsCompletion existingTask task updatedTask).
  - rewrite run_bind in Hrun. unfold await at 1 in Hrun. cbn [tick] in Hrun.
    destruct (update_completion_date _ _ _ _) as [|error d']; [done|].
    cbv beta iota in Hrun. rewrite run_ret in Hrun. cbv beta iota in Hrun.
    rewrite run_bind in Hrun. unfold update at 1 in Hrun. cbv beta iota in Hrun.
    rewrite run_bind in Hrun.
    destruct (movesTask existingTask task).
    + match type of Hrun with context [refetchMovedTask ?u ?g ?c ?s ?e ?t ?w1] =>
        destruct (refetchMovedTask_total u g c s e t w1) as ([] & w2 & Hre)
      end.
      rewrite Hre in Hrun. cbv beta iota in Hrun. rewrite run_ret in Hrun.
      by injection Hrun as <- <-.
    + rewrite run_ret in Hrun. cbv beta iota in Hrun. rewrite run_ret in Hrun.
      by injection Hrun as <- <-.
  - rewrite run_ret in Hrun. cbv beta iota in Hrun.
    rewrite run_bind in Hrun. unfold update at 1 in Hrun. cbv beta iota in Hrun.
    rewrite run_bind in Hrun.
    destruct (movesTask existingTask task).
    + match type of Hrun with context [refetchMovedTask ?u ?g ?c ?s ?e ?t ?w1] =>
        destruct (refetchMovedTask_total u g c s e t w1) as ([] & w2 & Hre)
      end.
      rewrite Hre in Hrun. cbv beta iota in Hrun. rewrite run_ret in Hrun.
      by injection Hrun as <- <-.
    + rewrite run_ret in Hrun. cbv beta iota in Hrun. rewrite run_ret in Hrun.
      by injection Hrun as <- <-.
Qed.

(** C3 (as amended). For a cached task and an [updateTask] that succeeds
    and sets the status to "done": if the task had no completion date and
    was not done, and the update supplies no completion date (the field is
    absent or empty), the returned task carries today's date as completion
    date; if the task was already done, or already had a completion date,
    and the update has no completion-date field, the completion date is
    the one the task had; and a completion date that the update supplies is
    the one the returned task carries. Unless the update moves the task
    between sprints or out of the backlog (which refetches those scopes),
    the cache then holds the returned task in place of the old one. *)
Theorem completion_date_write_once user gateway clock snap id task (w : World)
    existingTask t' :
  find (λ t, bool_decide (Task.id t = id)) (tasks snap) = Some existingTask →
  (updateTask user gateway clock snap id task w).1 = Returned t' →
  TaskPatch.status task = Some "done" →
  (Task.completionDate existingTask = None →
   Task.status existingTask ≠ "done" →
   TaskPatch.completionDate task = None ∨ TaskPatch.completionDate task = Some None →
   Task.completionDate t' = Some (todayDate clock (S (tick w))))
  ∧ (Task.status existingTask = "done" ∨ is_Some (Task.completionDate existingTask) →
     TaskPatch.completionDate task = None →
     Task.completionDate t' = Task.completionDate existingTask)
  ∧ (∀ d, TaskPatch.completionDate task = Some (Some d) →
          Task.completionDate t' = Some d)
  ∧ (movesTask existingTask task = false →
     tasks (store (updateTask user gateway clock snap id task w).2)
     = (λ t, if bool_decide (Task.id t = id) then t' else t) <$> tasks (store w)).
Proof.
  intros Hfind Hrun Hdone.
  destruct (updateTask_returned _ _ _ _ _ _ _ _ Hrun)
    as (existing' & Hfind' & Ht' & Hcache).
  rewrite Hfind in Hfind'. injection Hfind' as <-.
  split; [|split; [|split; [|exact Hcache]]]; cbv zeta in Ht'; subst t';
    unfold stampsCompletion, preserveCompletionDate, mergeTask; rewrite Hdone;
    rewrite (bool_decide_eq_true_2 (Some "done" = Some "done")) by done.
  - intros Hnone Hnotdone Hpatch. rewrite Hnone.
    rewrite (bool_decide_eq_true_2 _ Hnotdone).
    by destruct Hpatch as [-> | ->].
  - intros Hwas Hpatch. rewrite Hpatch. simpl.
    destruct (Task.completionDate existingTask) as [c|] eqn:Hc; simpl.
    + by rewrite andb_false_r.
    + destruct Hwas as [Hwas|[? ?]]; [|done].
      rewrite (bool_decide_eq_false_2 (Task.status existingTask ≠ "done")) by tauto.
      done.
  - intros d Hpatch. rewrite Hpatch. simpl. by rewrite andb_false_r.
Qed.

(** *** Deleting a project *)




(** *** The claims on the sample store *)

(** Witness of C2: a key fetched and then marked as errored at the same
    instant is stale, for any age. *)
Lemma stale_keys_are_refetched_witness :
  isStale (markFetchErrorAt "sprints-alpha"
             (updateFetchTimeAt 1700000000000 "sprints-alpha" emptyStore))
          1700000000000 "sprints-alpha" defaultMaxAge = true
  ∧ fetchSprints_cached
      (markFetchErrorAt "sprints-alpha"
         (updateFetchTimeAt 1700000000000 "sprints-alpha" emptyStore))
      1700000000000 "alpha" false = false.
Proof.
  destruct (stale_keys_are_refetched
              (markFetchErrorAt "sprints-alpha"
                 (updateFetchTimeAt 1700000000000 "sprints-alpha" emptyStore))
              1700000000000 "sprints-alpha" defaultMaxAge) as [Hstale Hguards].
  { right. right. right. by exists emptyStore, 1700000000000%Z. }
  split; [exact Hstale|].
  destruct (Hguards eq_refl) as [_ Hsprints]. by apply Hsprints.
Defined.

(** C2 as stated fails on the code: a key without any fetch timestamp
    (and without error flag) is not stale for an age that reaches back
    before the epoch, here 1.8e12 ms at time 1.7e12 ms. *)
Lemma staleness_claim_fails :
  lastFetchTime emptyStore !! "sprints-alpha" = None
  ∧ isStale emptyStore 1700000000000 "sprints-alpha" 1800000000000 = false
  ∧ shouldRefetch 1700000000000 (lastFetchTime emptyStore) "sprints-alpha" 1800000000000
    = false.
Proof. by vm_compute. Qed.

(** Witness of C3: marking task b of the sample store as done stamps day
    104, today. *)
Lemma completion_date_write_once_witness :
  (updateTask (Some "u") Sample.quiet Sample.clock Sample.store0 "b" Sample.markDone
     Sample.world0).1
  = Returned (Task.mk "b" "b" None "s1" "done" None (Some 3%Q) None ""
                      "2024-01-05T09:00:00.000Z" (Some "alpha") (Some 104%Z))
  ∧ Task.completionDate Sample.taskB = None
  ∧ Some 104%Z = Some (todayDate Sample.clock 1).
Proof.
  assert ((updateTask (Some "u") Sample.quiet Sample.clock Sample.store0 "b"
             Sample.markDone Sample.world0).1
          = Returned (Task.mk "b" "b" None "s1" "done" None (Some 3%Q) None ""
                              "2024-01-05T09:00:00.000Z" (Some "alpha") (Some 104%Z)))
    as Hrun by (vm_compute; reflexivity).
  split; [exact Hrun|]. split; [reflexivity|].
  refine (proj1 (completion_date_write_once (Some "u") Sample.quiet Sample.clock
                   Sample.store0 "b" Sample.markDone Sample.world0 Sample.taskB _
                   _ Hrun _) _ _ _).
  - vm_compute; reflexivity.
  - reflexivity.
  - reflexivity.
  - discriminate.
  - by left.
Defined.

(** C3 as stated fails on the code: task b of the sample store has no
    completion date and is not done; marking it done with an update that
    also supplies day 90 as completion date yields day 90, not today (day
    104). *)
Lemma completion_date_claim_fails :
  (updateTask (Some "u") Sample.quiet Sample.clock Sample.store0 "b" Sample.markDoneOn90
     Sample.world0).1
  = Returned (Task.mk "b" "b" None "s1" "done" None (Some 3%Q) None ""
                      "2024-01-05T09:00:00.000Z" (Some "alpha") (Some 90%Z))
  ∧ find (λ t, bool_decide (Task.id t = "b")) (tasks Sample.store0) = Some Sample.taskB
  ∧ Task.completionDate Sample.taskB = None
  ∧ Task.status Sample.taskB ≠ "done"
  ∧ TaskPatch.status Sample.markDoneOn90 = Some "done"
  ∧ todayDate Sample.clock 1 = 104%Z.
Proof. vm_compute. by repeat split. Qed.

(** Witness of C4: refetching the sprints of "alpha" when only sprint 2
    is left remotely. *)
Lemma fetchSprints_replaces_project_scope_witness :
  ∃ w', fetchSprints (Some "u") Sample.withSprint2 Sample.clock Sample.store0
          "alpha" false Sample.world0 = (Returned tt, w')
    ∧ sprints (store w') = [Sample.otherSprint; Sample.sprint2].
Proof.
  destruct (fetchSprints_replaces_project_scope (Some "u") Sample.withSprint2
              Sample.clock Sample.store0 Sample.world0 "alpha" false "u"
              [Sample.sprint2Row])
    as (w' & Hrun & Hsprints & _).
  - reflexivity.
  - vm_compute; reflexivity.
  - reflexivity.
  - exists w'. split; [exact Hrun|]. rewrite Hsprints. vm_compute; reflexivity.
Defined.



(** Witness of C7: offline, refetching the sprints of "alpha" returns,
    flags the key and keeps the cache. *)
Lemma fetch_failures_are_swallowed_witness :
  ∃ w', runFetch (Some "u") Sample.offline Sample.clock Sample.store0
          (FetchSprints "alpha" false) Sample.world0 = (Returned tt, w')
    ∧ cachedData (store w') = cachedData Sample.store0
    ∧ errored (fetchErrors (store w')) "sprints-alpha" = true.
Proof.
  destruct (fetch_failures_are_swallowed (Some "u") Sample.offline Sample.clock
              Sample.store0 (FetchSprints "alpha" false) Sample.world0)
    as (w' & Hrun & Hfail).
  exists w'. split; [exact Hrun|].
  destruct (Hfail "u") as (Hdata & _ & _ & Hflag).
  - reflexivity.
  - vm_compute; reflexivity.
  - reflexivity.
  - split; [exact Hdata|exact Hflag].
Defined.

(** Witness of C9: the sample store caches a collaborative project; an
    empty collaborators read leaves it there. *)
Lemma empty_collaborations_change_nothing_witness :
  ∃ w', fetchCollaborativeProjects (Some "u") Sample.quiet Sample.clock Sample.store0
          Sample.world0 = (Returned tt, w')
    ∧ projects (store w') = [Sample.projectAlpha; Sample.projectShared]
    ∧ lastFetchTime (store w') !! "collaborations" = None.
Proof.
  destruct (empty_collaborations_change_nothing (Some "u") Sample.quiet Sample.clock
              Sample.store0 Sample.world0 "u")
    as (w' & Hrun & _ & Hprojects & Htime).
  - reflexivity.
  - reflexivity.
  - exists w'. split; [exact Hrun|]. split; [exact Hprojects|exact Htime].
Defined.
End StoreProofs.

(** * Further facts about the burndown engine and the chart *)

Module BurndownMore.
Import Burndown BurndownFacts BurndownProofs Chart.
Local Open Scope Z_scope.


Lemma total_filter_mono (P Q : Task.t → Prop)
    `{!∀ t, Decision (P t)} `{!∀ t, Decision (Q t)} (ts : list Task.t) :
  Forall (λ t, hasPoints t = true) ts → (∀ t, P t → Q t) →
  (total (filter P ts) <= total (filter Q ts))%Q.
Proof.
  intros Hall Himp. induction Hall as [|t ts Ht _ IH]; simpl; [lra|].
  apply hasPoints_positive in Ht. rewrite !filter_cons.
  destruct (decide (P t)) as [HP|HP], (decide (Q t)) as [HQ|HQ]; simpl;
    try lra. exfalso. auto.
Qed.



Section Series.
Variable format : Z → string.
Variable today : Z.


(** The points of the series, one by one. *)
Lemma series_points sprints tasks projectId i p :
  generateBurndownData format today sprints tasks projectId !! i = Some p →
  ∃ e l,
    isEarliestStart e (getSprintsByProject sprints projectId)
    ∧ isLatestEnd l (getSprintsByProject sprints projectId)
    ∧ generateBurndownData format today sprints tasks projectId
      = pointAt format today
          (totalStoryPoints sprints tasks projectId)
          (totalStoryPoints sprints tasks projectId / inject_Z (timeframeDays e l))%Q
          (groupByCompletionDate (tasksWithPoints sprints tasks projectId)) e
        <$> seq 0 (Z.to_nat (timeframeDays e l))
    ∧ (i < Z.to_nat (timeframeDays e l))%nat
    ∧ p = pointAt format today
            (totalStoryPoints sprints tasks projectId)
            (totalStoryPoints sprints tasks projectId / inject_Z (timeframeDays e l))%Q
            (groupByCompletionDate (tasksWithPoints sprints tasks projectId)) e i.
Proof.
  intros Hp.
  destruct (series_nonempty_inv format today sprints tasks projectId) as [Hps Htwp].
  { intros Hnil. by rewrite Hnil in Hp. }
  destruct (generateBurndownData_series format today sprints tasks projectId Hps Htwp)
    as (e & l & _ & He & Hl & Hseries).
  destruct (series_lookup format today _ _ _ _ _ _ _ Hseries Hp) as [Hi ->].
  by exists e, l.
Qed.

Lemma pointAt_actual (T ppd : Q) m (e : Z) (i : nat) (a : Z) :
  BurndownDataPoint.actual (pointAt format today T ppd m e i) = Some a →
  e + Z.of_nat i ≤ today
  ∧ a = Math_round (Math_max 0 (T - completedUpTo m e i)%Q).
Proof.
  unfold pointAt. simpl.
  destruct (decide (e + Z.of_nat i < today)) as [Hlt|Hge].
  - rewrite (bool_decide_eq_true_2 _ Hlt). simpl. intros [= <-]. split; [lia|done].
  - rewrite (bool_decide_eq_false_2 _ Hge). simpl. case_bool_decide as Heq; [|done].
    simpl. intros [= <-]. split; [lia|done].
Qed.



(** X2. The actual remaining work never goes up: of two points of the
    series that both carry an actual value, the later one carries the
    smaller or the same value. *)
Theorem actual_never_increases sprints tasks projectId (i j : nat) p q a b :
  generateBurndownData format today sprints tasks projectId !! i = Some p →
  generateBurndownData format today sprints tasks projectId !! j = Some q →
  (i ≤ j)%nat →
  BurndownDataPoint.actual p = Some a →
  BurndownDataPoint.actual q = Some b →
  b ≤ a.
Proof.
  intros Hp Hq Hij Ha Hb.
  destruct (series_points _ _ _ _ _ Hp) as (e & l & He & _ & Hseries & _ & ->).
  destruct (series_lookup format today _ _ _ _ _ _ _ Hseries Hq) as [_ ->].
  apply pointAt_actual in Ha as [_ ->]. apply pointAt_actual in Hb as [_ ->].
  apply Math_round_mono, Math_max_mono.
  rewrite !completedUpTo_total.
  pose proof (tasksWithPoints_hasPoints sprints tasks projectId) as Hall.
  pose proof (total_filter_mono
                (doneWithin e (e + Z.of_nat i)) (doneWithin e (e + Z.of_nat j))
                (tasksWithPoints sprints tasks projectId) Hall) as Hmono.
  assert (∀ t, doneWithin e (e + Z.of_nat i) t → doneWithin e (e + Z.of_nat j) t) as Himp.
  { intros t [Hd (c & Hc & ?)]. split; [done|]. exists c. split; [done|lia]. }
  specialize (Hmono Himp). lra.
Qed.





End Series.

(** *** The unused helpers of the chart *)



Lemma groupCompletedSprintsByEndDate_snoc (ps : list Sprint.t) (s : Sprint.t) :
  groupCompletedSprintsByEndDate (ps ++ [s])
  = groupSprintStep (groupCompletedSprintsByEndDate ps) s.
Proof. unfold groupCompletedSprintsByEndDate. by rewrite fold_left_app. Qed.

(** X7. [groupCompletedSprintsByEndDate] files every completed sprint
    under its end date and nothing else: the bucket of a date holds the
    completed sprints ending that day, in their order, and a date on which
    no completed sprint ends has no bucket. *)
Theorem groupCompletedSprintsByEndDate_lookup (ps : list Sprint.t) (d : Z) :
  groupCompletedSprintsByEndDate ps !! d
  = if decide (filter (λ s, Sprint.status s = "completed" ∧ Sprint.endDate s = d) ps = [])
    then None
    else Some (filter (λ s, Sprint.status s = "completed" ∧ Sprint.endDate s = d) ps).
Proof.
  induction ps as [|s ps IH] using rev_ind; [done|].
  rewrite groupCompletedSprintsByEndDate_snoc, filter_app, filter_cons, filter_nil.
  unfold groupSprintStep.
  destruct (decide (Sprint.status s = "completed" ∧ Sprint.endDate s = d))
    as [[Hdone Hd]|Hnot].
  - rewrite bool_decide_eq_true_2 by done. rewrite Hd.
    rewrite decide_False by (intros Heq; by apply app_eq_nil in Heq as [_ ?]).
    rewrite IH. case_decide as Hnil.
    + rewrite lookup_insert_eq, lookup_insert_eq. by rewrite Hnil.
    + rewrite IH. by rewrite lookup_insert_eq.
  - rewrite app_nil_r. case_bool_decide as Hdone; [|done].
    assert (Sprint.endDate s ≠ d) as Hne by tauto.
    destruct (groupCompletedSprintsByEndDate ps !! Sprint.endDate s) eqn:Hc.
    + rewrite Hc. by rewrite lookup_insert_ne.
    + rewrite lookup_insert_eq. by rewrite !lookup_insert_ne.
Qed.

(** *** The placeholder series *)



(** *** The statements above on the sample project *)


(** Witness of X2 on the sample project: 8 points remain on day 100, 3 on day 102. *)
Lemma actual_never_increases_witness :
  generateBurndownData Sample.noFormat 104 [Sample.sprint1]
    [Sample.taskA; Sample.taskB] "alpha" !! 0%nat
  = Some (BurndownDataPoint.mk 100 8 (Some 8) "")
  ∧ generateBurndownData Sample.noFormat 104 [Sample.sprint1]
      [Sample.taskA; Sample.taskB] "alpha" !! 2%nat
    = Some (BurndownDataPoint.mk 102 6 (Some 3) "")
  ∧ 3 ≤ 8.
Proof.
  split; [vm_compute; reflexivity|]. split; [vm_compute; reflexivity|].
  apply (actual_never_increases Sample.noFormat 104 [Sample.sprint1]
           [Sample.taskA; Sample.taskB] "alpha" 0 2
           (BurndownDataPoint.mk 100 8 (Some 8) "")
           (BurndownDataPoint.mk 102 6 (Some 3) "") 8 3).
  - vm_compute; reflexivity.
  - vm_compute; reflexivity.
  - lia.
  - reflexivity.
  - reflexivity.
Defined.




End BurndownMore.

(** * Further facts about the store *)

Module StoreMore.
Import StoreProofs.
Implicit Types (user : option string) (gateway : Gateway) (clock : Clock).
Implicit Types (snap : Store) (mutations : Mutations).

(** *** Handlers that undo nothing because they have done nothing *)

Lemma undone_of_total {A} (m : Async A) : neverRaises m → undoneOnThrow m.
Proof. intros Hm w Hraised. destruct (Hm w) as (a & w' & Hrun). by rewrite Hrun in Hraised. Qed.

Lemma undone_throw {A} : undoneOnThrow (@throw A).
Proof. by intros w _. Qed.

Lemma undone_bind {A C} (m : Async A) (f : A → Async C) :
  keeps (λ st, st) m → (∀ a, undoneOnThrow (f a)) → undoneOnThrow (m ≫= f).
Proof.
  intros Hm Hf w. rewrite run_bind. specialize (Hm w).
  destruct (m w) as [[a|] w1] eqn:Hrun; simpl in Hm; [|done].
  intros Hraised. by rewrite (Hf a w1 Hraised).
Qed.

Lemma undone_tryCatch {A} (body handler : Async A) :
  undoneOnThrow body → keeps (λ st, st) handler → undoneOnThrow (tryCatch body handler).
Proof.
  intros Hbody Hhandler w. unfold tryCatch. specialize (Hbody w).
  destruct (body w) as [[a|] w1]; simpl in *; [done|].
  intros _. by rewrite Hhandler, Hbody.
Qed.

Lemma refreshProjectData_total user gateway clock snap projectId :
  neverRaises (refreshProjectData user gateway clock snap projectId).
Proof.
  unfold refreshProjectData, deleteFromLocalFetchTime.
  repeat total_step;
    auto using fetchSprints_total, fetchBacklogTasks_total, fetchTasksBySprint_total,
      fetchProjects_total, fetchCollaborativeProjects_total.
Qed.

Ltac undone_step :=
  lazymatch goal with
  | |- undoneOnThrow throw => apply undone_throw
  | |- undoneOnThrow (mret _) => apply undone_of_total, neverRaises_ret
  | |- undoneOnThrow (tryCatch _ _) => apply undone_tryCatch; [|repeat keeps_step]
  | |- undoneOnThrow (update _ ≫= _) => apply undone_of_total
  | |- undoneOnThrow (_ ≫= _) => apply undone_bind; [repeat keeps_step|intros ?]
  | |- undoneOnThrow (if ?b then _ else _) => destruct b
  | |- undoneOnThrow (match ?x with _ => _ end) => destruct x
  end.

(** X9. A [deleteSprint] that throws has not touched the store, and, the
    user being signed in, its last notification is the failure toast: the
    sprint and its tasks leave the cache only after all the remote deletes
    have succeeded. *)
Theorem deleteSprint_fails_cleanly user gateway clock snap id (w : World) :
  (deleteSprint user gateway clock snap id w).1 = Raised →
  store (deleteSprint user gateway clock snap id w).2 = store w
  ∧ (is_Some user →
     last (toasts (deleteSprint user gateway clock snap id w).2)
     = Some (ToastError "Failed to delete sprint")).
Proof.
  intros Hraised. split.
  - revert w Hraised. change (undoneOnThrow (deleteSprint user gateway clock snap id)).
    unfold deleteSprint. repeat undone_step; repeat total_step;
      apply refreshProjectData_total.
  - intros [userId ->]. unfold deleteSprint, tryCatch in *.
    match goal with |- context [match ?body w with _ => _ end] =>
      destruct (body w) as [[[]|] w1] end; [done|].
    rewrite run_bind. simpl. by rewrite last_snoc.
Qed.

(** X10. An [updateTask] that throws (nobody signed in, task not cached,
    a refused or rejected remote update) has not touched the store. *)
Theorem updateTask_fails_cleanly user gateway clock snap id task (w : World) :
  (updateTask user gateway clock snap id task w).1 = Raised →
  store (updateTask user gateway clock snap id task w).2 = store w.
Proof.
  revert w. change (undoneOnThrow (updateTask user gateway clock snap id task)).
  unfold updateTask. repeat undone_step; repeat total_step;
    apply refetchMovedTask_total.
Qed.

(** *** What an update returns and leaves behind *)



(** X12. Whatever status an update sets, a task that had a completion
    date keeps it when the update has no completion-date field; and the
    fields of the task that the update does not mention come back as they
    were. *)
Theorem updateTask_keeps_what_it_is_not_given user gateway clock snap id task
    (w : World) existingTask t' :
  find (λ t, bool_decide (Task.id t = id)) (tasks snap) = Some existingTask →
  (updateTask user gateway clock snap id task w).1 = Returned t' →
  (TaskPatch.completionDate task = None →
   is_Some (Task.completionDate existingTask) →
   Task.completionDate t' = Task.completionDate existingTask)
  ∧ (TaskPatch.title task = None → Task.title t' = Task.title existingTask)
  ∧ (TaskPatch.sprintId task = None → Task.sprintId t' = Task.sprintId existingTask)
  ∧ (TaskPatch.status task = None → Task.status t' = Task.status existingTask)
  ∧ (TaskPatch.storyPoints task = None →
     Task.storyPoints t' = Task.storyPoints existingTask)
  ∧ (TaskPatch.projectId task = None → Task.projectId t' = Task.projectId existingTask)
  ∧ Task.createdAt t' = default (Task.createdAt existingTask) (TaskPatch.createdAt task)
  ∧ Task.updatedAt t' = nowISO clock (S (tick w)).
Proof.
  intros Hfind Hrun.
  destruct (updateTask_returned _ _ _ _ _ _ _ _ Hrun)
    as (existing' & Hfind' & Ht' & _).
  rewrite Hfind in Hfind'. injection Hfind' as <-. cbv zeta in Ht'. subst t'.
  split.
  { intros Hpatch [d Hd]. unfold stampsCompletion, preserveCompletionDate.
    rewrite Hpatch, Hd. simpl. by rewrite andb_false_r. }
  unfold preserveCompletionDate.
  repeat split; try intros Hpatch;
    destruct (stampsCompletion _ _ _), (negb _ && _); simpl;
    rewrite ?Hpatch; reflexivity.
Qed.

(** *** Replacing the tasks of a scope *)

Lemma fetchTasksBySprint_success
    gateway clock snap (w : World) sprintId forceRefresh userId rows :
  fetchTasksBySprint_cached snap (Date_now clock (tick w)) sprintId forceRefresh = false →
  select_tasks_by_sprint gateway (tick w) sprintId = Resolves false (Some rows) →
  fetchTasksBySprint (Some userId) gateway clock snap sprintId forceRefresh w
  = (Returned tt,
     mkWorld
       (updateFetchTimeAt (Date_now clock (S (tick w))) (tasksKey sprintId)
          (setTasks (λ prev, filter (λ t, Task.sprintId t ≠ sprintId) prev
                             ++ (formatSprintTask <$> rows)) (store w)))
       (S (tick w)) (toasts w) false).
Proof.
  intros Hcached Hreply.
  unfold fetchTasksBySprint. rewrite run_bind. change (getWorld w) with (Returned w, w).
  cbv beta iota. rewrite Hcached. unfold tryCatch.
  rewrite run_bind. unfold await at 1. rewrite Hreply. reflexivity.
Qed.

(** X13. When the task read for a sprint is issued and resolves without
    error to [rows], the operation returns; the task cache is the old one
    without the tasks of that sprint, followed by the formatted rows; the
    fetch time of the key is the time of the reply and its error flag is
    cleared. The rows being of that sprint, the cached tasks of the sprint
    are then exactly the fetched ones and the tasks of every other sprint
    are as before. *)
Theorem fetchTasksBySprint_replaces_sprint_scope
    user gateway clock snap (w : World) sprintId forceRefresh userId rows :
  user = Some userId →
  fetchTasksBySprint_cached snap (Date_now clock (tick w)) sprintId forceRefresh = false →
  select_tasks_by_sprint gateway (tick w) sprintId = Resolves false (Some rows) →
  ∃ w', fetchTasksBySprint user gateway clock snap sprintId forceRefresh w
        = (Returned tt, w')
    ∧ tasks (store w')
      = filter (λ t, Task.sprintId t ≠ sprintId) (tasks (store w))
        ++ (formatSprintTask <$> rows)
    ∧ lastFetchTime (store w') !! tasksKey sprintId = Some (Date_now clock (S (tick w)))
    ∧ errored (fetchErrors (store w')) (tasksKey sprintId) = false
    ∧ (Forall (λ r, default "" (TaskRow.sprint_id r) = sprintId) rows →
       getTasksBySprint (tasks (store w')) sprintId = formatSprintTask <$> rows
       ∧ ∀ other, other ≠ sprintId →
           getTasksBySprint (tasks (store w')) other
           = getTasksBySprint (tasks (store w)) other).
Proof.
  intros -> Hcached Hreply.
  unfold fetchTasksBySprint. rewrite run_bind. change (getWorld w) with (Returned w, w).
  cbv beta iota. rewrite Hcached. unfold tryCatch.
  rewrite run_bind. unfold await at 1. rewrite Hreply.
  eexists. split; [reflexivity|]. cbn.
  split; [done|]. unfold errored.
  rewrite !lookup_insert_eq. split; [done|]. split; [done|].
  intros Hrows. unfold getTasksBySprint. rewrite !filter_app.
  assert (filter (λ t, Task.sprintId t = sprintId) (formatSprintTask <$> rows)
          = formatSprintTask <$> rows) as Hmine.
  { clear Hreply. induction Hrows as [|r rows Hr _ IH]; [done|].
    rewrite fmap_cons, filter_cons_True by exact Hr. by rewrite IH. }
  split.
  - rewrite Hmine, list_filter_filter, (filter_none _ (tasks (store w))); [done|].
    intros t _ [? ?]. done.
  - intros other Hne. rewrite filter_app, list_filter_filter.
    rewrite (filter_none _ (formatSprintTask <$> rows)), app_nil_r.
    + apply filter_agree. intros t _. split; [tauto|]. intros ->. by split.
    + intros t Ht Hother. apply list_elem_of_fmap in Ht as (r & -> & Hr).
      apply (proj1 (Forall_forall _ _) Hrows) in Hr. simpl in Hother. congruence.
Qed.

(** X14. When the backlog read for a project is issued and resolves
    without error to [rows], the operation returns and the task cache is
    the old one without the backlog tasks of that project, followed by the
    rows formatted as backlog tasks: each fetched task has the empty
    sprint id and the status "backlog" whatever its row says, the tasks
    outside that backlog are as before, and, the rows being of that
    project, the backlog of the project is exactly the fetched tasks. *)
Theorem fetchBacklogTasks_replaces_backlog_scope
    user gateway clock snap (w : World) projectId forceRefresh userId rows :
  user = Some userId →
  fetchBacklogTasks_cached snap (Date_now clock (tick w)) projectId forceRefresh = false →
  select_backlog_tasks gateway (tick w) projectId = Resolves false (Some rows) →
  ∃ w', fetchBacklogTasks user gateway clock snap projectId forceRefresh w
        = (Returned tt, w')
    ∧ tasks (store w')
      = filter (λ t, ¬ inBacklogOf projectId t) (tasks (store w))
        ++ (formatBacklogTask <$> rows)
    ∧ (∀ t, t ∈ formatBacklogTask <$> rows →
            Task.sprintId t = "" ∧ Task.status t = "backlog")
    ∧ filter (λ t, ¬ inBacklogOf projectId t) (tasks (store w'))
      = filter (λ t, ¬ inBacklogOf projectId t) (tasks (store w))
        ++ filter (λ t, ¬ inBacklogOf projectId t) (formatBacklogTask <$> rows)
    ∧ (Forall (λ r, TaskRow.project_id r = Some projectId) rows →
       getBacklogTasks (tasks (store w')) projectId = formatBacklogTask <$> rows
       ∧ filter (λ t, ¬ inBacklogOf projectId t) (tasks (store w'))
         = filter (λ t, ¬ inBacklogOf projectId t) (tasks (store w))).
Proof.
  intros -> Hcached Hreply.
  unfold fetchBacklogTasks. rewrite run_bind. change (getWorld w) with (Returned w, w).
  cbv beta iota. rewrite Hcached. unfold tryCatch.
  rewrite run_bind. unfold await at 1. rewrite Hreply.
  eexists. split; [reflexivity|]. cbn.
  split; [done|]. split.
  { intros t Ht. apply list_elem_of_fmap in Ht as (r & -> & _). by split. }
  assert (filter (λ t, ¬ inBacklogOf projectId t)
            (filter (λ t, ¬ inBacklogOf projectId t) (tasks (store w)))
          = filter (λ t, ¬ inBacklogOf projectId t) (tasks (store w))) as Hidem.
  { rewrite list_filter_filter. apply filter_agree. intros t _. tauto. }
  split; [by rewrite filter_app, Hidem|].
  intros Hrows.
  assert (∀ t, t ∈ formatBacklogTask <$> rows → inBacklogOf projectId t) as Hin.
  { intros t Ht. apply list_elem_of_fmap in Ht as (r & -> & Hr).
    apply (proj1 (Forall_forall _ _) Hrows) in Hr. by repeat split. }
  split.
  - unfold getBacklogTasks. fold (inBacklogOf projectId).
    change (λ t : Task.t, Task.status t = "backlog"
                          ∧ Task.projectId t = Some projectId ∧ Task.sprintId t = "")
      with (inBacklogOf projectId).
    rewrite filter_app, list_filter_filter.
    rewrite (filter_none _ (tasks (store w))) by (intros t _ [? ?]; done).
    simpl. clear Hidem.
    induction (formatBacklogTask <$> rows) as [|t ts IH]; [done|].
    rewrite filter_cons_True by (apply Hin; left).
    rewrite IH; [done|]. intros t' Ht'. apply Hin. by right.
  - rewrite filter_app, Hidem.
    rewrite (filter_none _ (formatBacklogTask <$> rows)), app_nil_r; [done|].
    intros t Ht Hnot. by apply Hnot, Hin.
Qed.

(** *** Replacing the project list *)

Lemma fanOut_total user gateway clock snap fetched :
  neverRaises (fanOut user gateway clock snap fetched).
Proof.
  unfold fanOut. repeat total_step;
    auto using fetchSprints_total, fetchBacklogTasks_total.
Qed.

Lemma fanOut_keeps_projects user gateway clock snap fetched :
  keeps (λ st, (projects st, isLoading st)) (fanOut user gateway clock snap fetched).
Proof.
  unfold fanOut, fetchSprints, fetchBacklogTasks, fetchTasksBySprint,
    updateFetchTime, markFetchError.
  repeat keeps_step.
Qed.

(** X15. When the read of the user's projects is issued and resolves
    without error to [rows], [fetchProjects] returns with the project list
    replaced by the formatted rows alone: the collaborative projects that
    were cached are no longer in the list, and the loading flag is down. *)
Theorem fetchProjects_replaces_project_list
    user gateway clock snap (w : World) userId rows :
  user = Some userId →
  isLoading snap = false →
  fetchProjects_cached snap (Date_now clock (tick w)) = false →
  select_projects gateway (tick w) userId = Resolves false (Some rows) →
  ∃ w', fetchProjects user gateway clock snap w = (Returned tt, w')
    ∧ projects (store w') = formatProject false None <$> rows
    ∧ (∀ p, p ∈ projects (store w') → Project.isCollaboration p = false)
    ∧ isLoading (store w') = false.
Proof.
  intros -> Hloading Hcached Hreply. unfold fetchProjects. rewrite Hloading.
  rewrite run_bind. change (getWorld w) with (Returned w, w). cbv beta iota.
  rewrite Hcached. rewrite run_bind. unfold update at 1. cbv beta iota.
  unfold tryCatchFinally, tryCatch. rewrite run_bind. unfold await at 1.
  cbn [tick store toasts fetchTimeIsLocal]. rewrite Hreply. cbv beta iota zeta.
  rewrite run_bind. change (throwIf false) with (mret tt : Async unit).
  rewrite run_ret. cbv beta iota. rewrite run_bind.
  unfold update at 1. cbv beta iota. cbn [store tick toasts fetchTimeIsLocal].
  match goal with |- context [(?m ≫= ?f) ?w1] =>
    destruct (run_total_keeps (λ st, (projects st, isLoading st)) (m ≫= f) w1)
      as ([] & w' & Hrun & Hkeep)
  end.
  { total_step; [apply updateFetchTime_total|]. apply fanOut_total. }
  { unfold updateFetchTime. keeps_step; [repeat keeps_step|].
    apply fanOut_keeps_projects. }
  rewrite Hrun. eexists. split; [reflexivity|].
  cbn [store projects isLoading setIsLoading].
  injection Hkeep as Hprojects _. cbn in Hprojects. rewrite Hprojects.
  split; [done|]. split; [|done].
  intros p Hp. apply list_elem_of_fmap in Hp as (r & -> & _). done.
Qed.

(** X16. When the read of the user's collaborations is issued and
    resolves without error to at least one row, [fetchCollaborativeProjects]
    returns with the projects the user owns kept, in their order, followed
    by one collaborative project for each row that carries its project; the
    collaborative projects cached before are replaced. *)
Theorem fetchCollaborativeProjects_replaces_collaborations
    user gateway clock snap (w : World) userId row rows :
  user = Some userId →
  isLoading snap = false →
  fetchCollaborativeProjects_cached snap (Date_now clock (tick w)) = false →
  select_collaborators gateway (tick w) userId = Resolves false (Some (row :: rows)) →
  ∃ w', fetchCollaborativeProjects user gateway clock snap w = (Returned tt, w')
    ∧ projects (store w')
      = filter (λ p, Project.isCollaboration p = false) (projects (store w))
        ++ formatCollaborations (row :: rows)
    ∧ filter (λ p, Project.isCollaboration p = false) (projects (store w'))
      = filter (λ p, Project.isCollaboration p = false) (projects (store w))
    ∧ filter (λ p, Project.isCollaboration p = true) (projects (store w'))
      = formatCollaborations (row :: rows)
    ∧ (length (formatCollaborations (row :: rows)) ≤ length (row :: rows))%nat.
Proof.
  intros -> Hloading Hcached Hreply. unfold fetchCollaborativeProjects.
  rewrite Hloading.
  rewrite run_bind. change (getWorld w) with (Returned w, w). cbv beta iota.
  rewrite Hcached. unfold tryCatch. rewrite run_bind. unfold await at 1.
  rewrite Hreply. cbv beta iota zeta.
  rewrite run_bind. change (throwIf false) with (mret tt : Async unit).
  rewrite run_ret. cbv beta iota. rewrite run_bind.
  unfold update at 1. cbv beta iota. cbn [store tick toasts fetchTimeIsLocal].
  match goal with |- context [(?m ≫= ?f) ?w1] =>
    destruct (run_total_keeps (λ st, (projects st, isLoading st)) (m ≫= f) w1)
      as ([] & w' & Hrun & Hkeep)
  end.
  { total_step; [apply updateFetchTime_total|]. apply fanOut_total. }
  { unfold updateFetchTime. keeps_step; [repeat keeps_step|].
    apply fanOut_keeps_projects. }
  rewrite Hrun. eexists. split; [reflexivity|].
  injection Hkeep as Hprojects _.
  change (projects (store w')
          = filter (λ p, Project.isCollaboration p = false) (projects (store w))
            ++ formatCollaborations (row :: rows)) in Hprojects.
  rewrite Hprojects.
  assert (∀ p, p ∈ formatCollaborations (row :: rows) → Project.isCollaboration p = true)
    as Hcollab.
  { intros p Hp. unfold formatCollaborations in Hp.
    apply list_elem_of_omap in Hp as (item & _ & Hitem).
    destruct (CollaboratorRow.projects item); [|done].
    by injection Hitem as <-. }
  split; [done|]. rewrite !filter_app, !list_filter_filter.
  split; [|split].
  - rewrite (filter_none _ (formatCollaborations _)), app_nil_r.
    + apply filter_agree. intros p _. tauto.
    + intros p Hp Hown. apply Hcollab in Hp. congruence.
  - rewrite (filter_none _ (projects (store w))).
    + rewrite app_nil_l. generalize (formatCollaborations (row :: rows)), Hcollab.
      intros l Hl. induction l as [|p l IH]; [done|].
      rewrite filter_cons_True by (apply Hl; left).
      rewrite IH; [done|]. intros q Hq. apply Hl. by right.
    + intros p _ [Hc Ho]. congruence.
  - unfold formatCollaborations. generalize (row :: rows). intros l.
    induction l as [|item l IH]; [done|]. simpl.
    change (list_omap _ _ ?f l) with (omap f l).
    destruct (CollaboratorRow.projects item); simpl;
      change (list_omap _ _ ?f l) with (omap f l); lia.
Qed.

(** *** Refreshing *)

Lemma announces_toast t : announces t (toast t).
Proof. intros w. eexists. split; [reflexivity|]. simpl. apply last_snoc. Qed.

Lemma announces_bind {A} t (m : Async A) (f : A → Async unit) :
  neverRaises m → (∀ a, announces t (f a)) → announces t (m ≫= f).
Proof.
  intros Hm Hf w. rewrite run_bind. destruct (Hm w) as (a & w1 & ->). apply Hf.
Qed.

Lemma announces_tryCatch t (body handler : Async unit) :
  announces t body → announces t (tryCatch body handler).
Proof.
  intros Hb w. unfold tryCatch. destruct (Hb w) as (w' & -> & Hlast). by exists w'.
Qed.

Ltac announces_step :=
  lazymatch goal with
  | |- announces _ (toast _) => apply announces_toast
  | |- announces _ (tryCatch _ _) => apply announces_tryCatch
  | |- announces _ (_ ≫= _) => apply announces_bind; [|intros ?]
  end.

Lemma refreshProjectData_announces user gateway clock snap projectId (w : World) :
  is_Some user →
  ∃ w', refreshProjectData user gateway clock snap projectId w = (Returned tt, w')
    ∧ last (toasts w')
      = Some (ToastSuccess (if truthyOpt projectId
                            then "Project data refreshed successfully"
                            else "All data refreshed successfully")).
Proof.
  intros [userId ->]. revert w.
  change (announces
            (ToastSuccess (if truthyOpt projectId
                           then "Project data refreshed successfully"
                           else "All data refreshed successfully"))
            (refreshProjectData (Some userId) gateway clock snap projectId)).
  unfold refreshProjectData. apply announces_tryCatch.
  destruct projectId as [projectId|]; simpl; [destruct (truthy projectId)|];
    repeat announces_step; unfold deleteFromLocalFetchTime; repeat total_step;
    auto using fetchSprints_total, fetchBacklogTasks_total, fetchTasksBySprint_total,
      fetchProjects_total, fetchCollaborativeProjects_total, markFetchError_total.
Qed.

(** X17. With a user signed in, [refreshProjectData] never throws and the
    notification it shows last is the one of success, whatever the remote
    reads did: each fetch swallows its own failure, so the notification of
    a failed refresh is never the last one. *)
Theorem refreshProjectData_always_reports_success
    user gateway clock snap projectId (w : World) :
  is_Some user →
  ∃ w', refreshProjectData user gateway clock snap projectId w = (Returned tt, w')
    ∧ last (toasts w')
      = Some (ToastSuccess (if truthyOpt projectId
                            then "Project data refreshed successfully"
                            else "All data refreshed successfully")).
Proof.
  apply refreshProjectData_announces.
Qed.

(** X18. A refresh of all data issued from a render whose project list
    and collaborations are still served from the cache (or that is
    loading) reads nothing from the remote store: it empties the record of
    fetch times, reports success, and leaves the cached data as it was. *)
Theorem refresh_of_all_reads_nothing_while_fresh
    user gateway clock snap (w : World) :
  is_Some user →
  isLoading snap = true
  ∨ (fetchProjects_cached snap (Date_now clock (tick w)) = true
     ∧ fetchCollaborativeProjects_cached snap (Date_now clock (tick w)) = true) →
  refreshProjectData user gateway clock snap None w
  = (Returned tt,
     mkWorld (setLastFetchTime (λ _, ∅) (store w)) (tick w)
             (toasts w ++ [ToastSuccess "All data refreshed successfully"]) false).
Proof.
  intros [userId ->] Hfresh. unfold refreshProjectData, tryCatch.
  rewrite run_bind. unfold update at 1. cbv beta iota.
  rewrite run_bind. unfold setFetchTimeIsLocal at 1. cbv beta iota.
  cbn [store tick toasts fetchTimeIsLocal].
  unfold fetchProjects, fetchCollaborativeProjects.
  destruct Hfresh as [->|[Hp Hc]]; [reflexivity|].
  destruct (isLoading snap); [reflexivity|].
  rewrite run_bind. rewrite run_bind.
  change (getWorld ?w0) with (Returned w0, w0). cbv beta iota.
  cbn [store tick toasts fetchTimeIsLocal]. rewrite Hp. rewrite run_ret.
  rewrite run_bind. rewrite run_bind.
  change (getWorld ?w0) with (Returned w0, w0). cbv beta iota.
  cbn [store tick toasts fetchTimeIsLocal]. rewrite Hc. reflexivity.
Qed.

(** X19. After a read of the tasks of a sprint has resolved to [rows], a
    render of the resulting store serves that sprint from the cache
    exactly when no more than 60000 ms have passed since the reply and the
    read brought at least one task of the sprint: a sprint without tasks
    is read again on every call. *)
Theorem fetched_sprint_is_cached_while_fresh_and_nonempty
    user gateway clock snap (w : World) sprintId forceRefresh userId rows (now : Z) :
  user = Some userId →
  fetchTasksBySprint_cached snap (Date_now clock (tick w)) sprintId forceRefresh = false →
  select_tasks_by_sprint gateway (tick w) sprintId = Resolves false (Some rows) →
  fetchTasksBySprint_cached
    (store (fetchTasksBySprint user gateway clock snap sprintId forceRefresh w).2)
    now sprintId false = true
  ↔ (now - Date_now clock (S (tick w)) ≤ 60000)%Z
    ∧ Exists (λ r, default "" (TaskRow.sprint_id r) = sprintId) rows.
Proof.
  intros -> Hcached Hreply.
  rewrite (fetchTasksBySprint_success _ _ _ _ _ _ _ _ Hcached Hreply).
  unfold fetchTasksBySprint_cached, usesCache, shouldRefetch, errored, defaultMaxAge.
  cbn. rewrite !lookup_insert_eq. cbn.
  rewrite andb_true_r, andb_true_iff, negb_true_iff, bool_decide_eq_false,
    bool_decide_eq_true.
  rewrite Exists_app, !Exists_exists.
  split.
  - intros [Hage [(t & Ht & Hs)|(t & Ht & Hs)]].
    + apply list_elem_of_filter in Ht as [Hne _]. done.
    + apply list_elem_of_fmap in Ht as (r & -> & Hr). split; [lia|]. by exists r.
  - intros [Hage (r & Hr & Hs)]. split; [lia|]. right.
    exists (formatSprintTask r). split; [|exact Hs].
    apply list_elem_of_fmap. by exists r.
Qed.

(** *** The handlers that write *)


Lemma addProject_undone user mutations clock project :
  undoneOnThrow (addProject user mutations clock project).
Proof. unfold addProject. repeat undone_step; repeat total_step. Qed.

Lemma addSprint_undone user gateway mutations clock snap sprint :
  undoneOnThrow (addSprint user gateway mutations clock snap sprint).
Proof.
  unfold addSprint. repeat undone_step; repeat total_step.
  apply refreshProjectData_total.
Qed.

Lemma updateSprint_undone user gateway mutations clock snap id sprint :
  undoneOnThrow (updateSprint user gateway mutations clock snap id sprint).
Proof.
  unfold updateSprint. repeat undone_step; repeat total_step;
    apply refreshProjectData_total.
Qed.

Lemma addTask_undone user gateway mutations clock snap task :
  undoneOnThrow (addTask user gateway mutations clock snap task).
Proof.
  unfold addTask. repeat undone_step; repeat total_step;
    auto using fetchBacklogTasks_total, fetchTasksBySprint_total.
Qed.

Lemma deleteTask_undone user gateway mutations clock snap id :
  undoneOnThrow (deleteTask user gateway mutations clock snap id).
Proof.
  unfold deleteTask. repeat undone_step; repeat total_step;
    auto using fetchBacklogTasks_total, fetchTasksBySprint_total.
Qed.

(** X20. [addProject], [addSprint], [updateSprint] and [addTask] change
    the store only once their remote write has succeeded, and nothing
    after that point throws: whenever one of them throws, the store is as
    it was. *)
Theorem writes_fail_cleanly user gateway mutations clock snap (w : World) :
  (∀ project,
     (addProject user mutations clock project w).1 = Raised →
     store (addProject user mutations clock project w).2 = store w)
  ∧ (∀ sprint,
       (addSprint user gateway mutations clock snap sprint w).1 = Raised →
       store (addSprint user gateway mutations clock snap sprint w).2 = store w)
  ∧ (∀ id sprint,
       (updateSprint user gateway mutations clock snap id sprint w).1 = Raised →
       store (updateSprint user gateway mutations clock snap id sprint w).2 = store w)
  ∧ (∀ task,
       (addTask user gateway mutations clock snap task w).1 = Raised →
       store (addTask user gateway mutations clock snap task w).2 = store w).
Proof.
  repeat split; intros.
  - by apply addProject_undone.
  - by apply addSprint_undone.
  - by apply updateSprint_undone.
  - by apply addTask_undone.
Qed.

(** X21. A handler asked to act on what the rendered cache does not hold
    throws at once, before any remote call and with nothing changed:
    [updateSprint] of an unknown sprint, [updateTask] and [deleteTask] of
    an unknown task, [addTask] of a task without a project id. *)
Theorem unknown_targets_throw_at_once
    user gateway mutations clock snap (w : World) :
  (∀ id sprint,
     getSprint (sprints snap) id = None →
     updateSprint user gateway mutations clock snap id sprint w = (Raised, w))
  ∧ (∀ id task,
       getTask (tasks snap) id = None →
       updateTask user gateway clock snap id task w = (Raised, w))
  ∧ (∀ id,
       getTask (tasks snap) id = None →
       deleteTask user gateway mutations clock snap id w = (Raised, w))
  ∧ (∀ task,
       truthyOpt (Task.projectId task) = false →
       addTask user gateway mutations clock snap task w = (Raised, w)).
Proof.
  unfold getSprint, getTask. repeat split.
  - intros id sprint Hfind. unfold updateSprint. rewrite Hfind. by destruct user.
  - intros id task Hfind. unfold updateTask. rewrite Hfind. by destruct user.
  - intros id Hfind. unfold deleteTask. rewrite Hfind. by destruct user.
  - intros task Hproject. unfold addTask. destruct user; [|done].
    destruct (Task.projectId task) as [projectId|]; [|done].
    simpl in Hproject. by rewrite Hproject.
Qed.


(** X23. The task that [addTask] returns is built from the inserted row,
    not from its argument: a returned task stems from an insert that
    resolved without error, made for a signed-in user and a non-empty
    project id, with no sprint id when the status is "backlog"; its
    [updatedAt] is the row's [created_at]. *)
Theorem addTask_returns_inserted_row
    user gateway mutations clock snap task (w : World) t :
  (addTask user gateway mutations clock snap task w).1 = Returned t →
  ∃ userId projectId row,
    user = Some userId
    ∧ Task.projectId task = Some projectId ∧ projectId ≠ ""
    ∧ insert_task mutations (tick w)
        (TaskInsert.mk (Task.title task) (Task.description task) (Task.status task)
           (Task.assignedTo task) (Task.storyPoints task) (Task.priority task)
           (if bool_decide (Task.status task = "backlog")
            then None else Some (Task.sprintId task))
           projectId userId)
      = Resolves false (Some row)
    ∧ t = formatSprintTask row
    ∧ Task.updatedAt t = TaskRow.created_at row
    ∧ Task.sprintId t = default "" (TaskRow.sprint_id row).
Proof.
  unfold addTask. destruct user as [userId|]; [|done].
  destruct (Task.projectId task) as [projectId|]; [|done].
  destruct (truthy projectId) eqn:Hproject; [|done].
  cbn [negb]. cbv iota. cbv zeta. unfold tryCatch. rewrite run_bind.
  unfold await at 1.
  destruct (insert_task mutations (tick w) _) as [|[] [row|]] eqn:Hreply; try done.
  cbv beta iota. rewrite run_bind. change (throwIf false) with (mret tt : Async unit).
  rewrite run_ret. cbv beta iota. rewrite run_bind. unfold update at 1.
  cbv beta iota. rewrite run_bind.
  match goal with |- context [(if ?b then ?x else ?y) ?w1] =>
    assert (neverRaises (if b then x else y)) as Htotal
  end.
  { repeat total_step; auto using fetchBacklogTasks_total, fetchTasksBySprint_total. }
  match goal with |- context [(if ?b then ?x else ?y) ?w1] =>
    destruct (Htotal w1) as ([] & w' & ->)
  end.
  rewrite run_ret. intros [= <-].
  exists userId, projectId, row. repeat split; try done.
  unfold truthy in Hproject. by apply bool_decide_eq_true_1 in Hproject.
Qed.

Lemma find_replaced_sprint (sprints : list Sprint.t) (id : string) (s' : Sprint.t) :
  Sprint.id s' = id →
  (∃ s, s ∈ sprints ∧ Sprint.id s = id) →
  getSprint ((λ s, if bool_decide (Sprint.id s = id) then s' else s) <$> sprints) id
  = Some s'.
Proof.
  intros Hid (s0 & Hs0 & Hid0). unfold getSprint.
  induction sprints as [|s sprints IH]; [by apply not_elem_of_nil in Hs0|].
  rewrite fmap_cons. cbn [find].
  destruct (decide (Sprint.id s = id)) as [Heq|Hne].
  - rewrite (bool_decide_eq_true_2 _ Heq). by rewrite (bool_decide_eq_true_2 _ Hid).
  - rewrite (bool_decide_eq_false_2 _ Hne). rewrite (bool_decide_eq_false_2 _ Hne).
    apply IH. apply elem_of_cons in Hs0 as [->|Hs0]; [done|exact Hs0].
Qed.

(** X24. An [updateSprint] that returns gives back the sprint of the
    rendered cache with the given fields laid over it, under the same id.
    Unless the update completes a sprint of a project, nothing is read
    from the remote store: the cached sprints of that id are replaced by
    the returned sprint, so that looking the id up gives it back, and all
    else is as before. When the update does complete a sprint of a
    project, the project is refreshed and success of the refresh is the
    last notification. *)
Theorem updateSprint_then_getSprint
    user gateway mutations clock snap id sprint (w : World) existingSprint s' :
  getSprint (sprints snap) id = Some existingSprint →
  (updateSprint user gateway mutations clock snap id sprint w).1 = Returned s' →
  s' = mergeSprint existingSprint sprint
  ∧ Sprint.id s' = id
  ∧ (isCompletingStatus existingSprint sprint
     && truthy (Sprint.projectId existingSprint) = false →
     (updateSprint user gateway mutations clock snap id sprint w).2
     = mkWorld
         (setSprints (λ prev,
            (λ s, if bool_decide (Sprint.id s = id) then s' else s) <$> prev) (store w))
         (S (tick w)) (toasts w) (fetchTimeIsLocal w)
     ∧ ((∃ s, s ∈ sprints (store w) ∧ Sprint.id s = id) →
        getSprint
          (sprints (store (updateSprint user gateway mutations clock snap id sprint w).2))
          id = Some s'))
  ∧ (isCompletingStatus existingSprint sprint
     && truthy (Sprint.projectId existingSprint) = true →
     last (toasts (updateSprint user gateway mutations clock snap id sprint w).2)
     = Some (ToastSuccess "Project data refreshed successfully")).
Proof.
  unfold getSprint. intros Hfind.
  assert (Sprint.id (mergeSprint existingSprint sprint) = id) as Hid.
  { apply find_some in Hfind as [_ Hfound]. by apply bool_decide_eq_true_1 in Hfound. }
  destruct (updateSprint user gateway mutations clock snap id sprint w)
    as [out wf] eqn:Hrun.
  cbn [fst snd]. intros ->. revert Hrun.
  unfold updateSprint. destruct user as [userId|]; [|by intros [=]].
  rewrite Hfind. unfold tryCatch. rewrite run_bind. unfold await at 1.
  destruct (update_sprint mutations (tick w) id sprint) as [|[] d];
    try (by intros [=]).
  cbv beta iota zeta. rewrite run_bind. change (throwIf false) with (mret tt : Async unit).
  rewrite run_ret. cbv beta iota. rewrite run_bind. unfold update at 1.
  cbv beta iota. rewrite run_bind. cbn [store tick toasts fetchTimeIsLocal].
  destruct (isCompletingStatus existingSprint sprint
            && truthy (Sprint.projectId existingSprint)) eqn:Hcompleting.
  - match goal with |- context [refreshProjectData ?u ?g ?c ?sn ?p ?w1] =>
      destruct (refreshProjectData_announces u g c sn p w1)
        as (w' & -> & Hlast)
    end; [done|].
    rewrite run_ret. intros [= <- <-]. repeat split; try done.
    intros _. rewrite Hlast. apply andb_true_iff in Hcompleting as [_ Ht].
    simpl. by rewrite Ht.
  - rewrite !run_ret. intros [= <- <-]. repeat split; try done.
    intros Hcached. cbn [store sprints setSprints]. by apply find_replaced_sprint.
Qed.

(** X25. When the insert resolves without error to a row, [addSprint]
    returns the sprint built from that row and then refreshes, and the
    last notification is the success of that refresh: of the project named
    by its argument or, that project id being empty, of all data. *)
Theorem addSprint_returns_inserted_row_and_refreshes
    user gateway mutations clock snap sprint (w : World) userId row :
  user = Some userId →
  insert_sprint mutations (tick w)
    (SprintInsert.mk (Sprint.title sprint) (Sprint.description sprint)
       (Sprint.projectId sprint) (Sprint.startDate sprint) (Sprint.endDate sprint)
       (Sprint.status sprint) userId)
  = Resolves false (Some row) →
  ∃ w',
    addSprint user gateway mutations clock snap sprint w = (Returned (formatSprint row), w')
    ∧ last (toasts w')
      = Some (ToastSuccess (if truthy (Sprint.projectId sprint)
                            then "Project data refreshed successfully"
                            else "All data refreshed successfully")).
Proof.
  intros -> Hreply. unfold addSprint, tryCatch.
  rewrite run_bind. unfold await at 1. rewrite Hreply.
  cbv beta iota zeta. rewrite run_bind. change (throwIf false) with (mret tt : Async unit).
  rewrite run_ret. cbv beta iota. rewrite run_bind. unfold update at 1.
  cbv beta iota. rewrite run_bind.
  match goal with |- context [refreshProjectData ?u ?g ?c ?sn ?p ?w1] =>
    destruct (refreshProjectData_announces u g c sn p w1)
      as (w' & -> & Hlast)
  end; [done|].
  rewrite run_ret. exists w'. split; [done|]. exact Hlast.
Qed.

Lemma fetchTasksBySprint_origin user gateway clock snap sprintId forceRefresh
    (w : World) t :
  t ∈ tasks (store (fetchTasksBySprint user gateway clock snap sprintId forceRefresh w).2) →
  t ∈ tasks (store w)
  ∨ ∃ rows, select_tasks_by_sprint gateway (tick w) sprintId = Resolves false (Some rows)
            ∧ t ∈ formatSprintTask <$> rows.
Proof.
  unfold fetchTasksBySprint. destruct user; [|by left].
  rewrite run_bind. change (getWorld w) with (Returned w, w). cbv beta iota.
  destruct (fetchTasksBySprint_cached _ _ _ _); [by left|].
  unfold tryCatch. rewrite run_bind. unfold await at 1.
  destruct (select_tasks_by_sprint gateway (tick w) sprintId) as [|[] [rows|]];
    cbn; try (by left).
  intros Ht. apply elem_of_app in Ht as [Ht|Ht].
  - left. by apply list_elem_of_filter in Ht as [_ ?].
  - right. by exists rows.
Qed.

Lemma fetchBacklogTasks_origin user gateway clock snap projectId forceRefresh
    (w : World) t :
  t ∈ tasks (store (fetchBacklogTasks user gateway clock snap projectId forceRefresh w).2) →
  t ∈ tasks (store w)
  ∨ ∃ rows, select_backlog_tasks gateway (tick w) projectId = Resolves false (Some rows)
            ∧ t ∈ formatBacklogTask <$> rows.
Proof.
  unfold fetchBacklogTasks. destruct user; [|by left].
  rewrite run_bind. change (getWorld w) with (Returned w, w). cbv beta iota.
  destruct (fetchBacklogTasks_cached _ _ _ _); [by left|].
  unfold tryCatch. rewrite run_bind. unfold await at 1.
  destruct (select_backlog_tasks gateway (tick w) projectId) as [|[] [rows|]];
    cbn; try (by left).
  intros Ht. apply elem_of_app in Ht as [Ht|Ht].
  - left. by apply list_elem_of_filter in Ht as [_ ?].
  - right. by exists rows.
Qed.

(** X26. For a task of the rendered cache, [deleteTask] returns exactly
    when a user is signed in and the remote delete resolves without error;
    when it throws, the store is as it was. A task of the deleted id that
    is in the cache after a delete that returned has been brought back by
    the read that follows the delete: that of the task's sprint or, the
    task having none, of its project's backlog. *)
Theorem deleted_task_returns_only_from_the_remote
    user gateway mutations clock snap id (w : World) taskToDelete :
  getTask (tasks snap) id = Some taskToDelete →
  ((deleteTask user gateway mutations clock snap id w).1 = Returned tt
   ↔ ∃ userId d, user = Some userId
       ∧ delete_task mutations (tick w) id userId = Resolves false d)
  ∧ ((deleteTask user gateway mutations clock snap id w).1 = Raised →
     store (deleteTask user gateway mutations clock snap id w).2 = store w)
  ∧ ((deleteTask user gateway mutations clock snap id w).1 = Returned tt →
     ∀ t, t ∈ tasks (store (deleteTask user gateway mutations clock snap id w).2) →
          Task.id t = id →
          ∃ rows r, r ∈ rows ∧ TaskRow.id r = id
            ∧ if truthy (Task.sprintId taskToDelete)
              then select_tasks_by_sprint gateway (S (tick w))
                     (Task.sprintId taskToDelete) = Resolves false (Some rows)
              else select_backlog_tasks gateway (S (tick w))
                     (default "" (Task.projectId taskToDelete))
                   = Resolves false (Some rows)).
Proof.
  unfold getTask. intros Hfind.
  pose proof (deleteTask_undone user gateway mutations clock snap id w) as Hundone.
  destruct (deleteTask user gateway mutations clock snap id w) as [out wf] eqn:Hrun.
  cbn [fst snd] in *.
  match goal with |- ?A ∧ _ ∧ ?C =>
    enough (A ∧ C) as [H1 H2] by (split; [exact H1|split; [exact Hundone|exact H2]])
  end.
  revert Hrun. clear Hundone.
  unfold deleteTask.
  destruct user as [userId|];
    [|intros [= <- <-]; split; [split; [done|by intros (? & ? & ? & _)]|done]].
  rewrite Hfind. unfold tryCatch. rewrite run_bind. unfold await at 1.
  destruct (delete_task mutations (tick w) id userId) as [|[] d] eqn:Hreply.
  { intros [= <- <-]. split; [split; [done|]|done].
    intros (u & d & [= <-] & Hd). congruence. }
  { intros [= <- <-]. split; [split; [done|]|done].
    intros (u & d' & [= <-] & Hd). congruence. }
  cbv beta iota zeta. rewrite run_bind. change (throwIf false) with (mret tt : Async unit).
  rewrite run_ret. cbv beta iota. rewrite run_bind. unfold update at 1.
  cbv beta iota. cbn [store tick toasts fetchTimeIsLocal].
  match goal with |- context [(if ?b then ?x else ?y) ?w1] =>
    assert (neverRaises (if b then x else y)) as Htotal
  end.
  { repeat total_step; auto using fetchBacklogTasks_total, fetchTasksBySprint_total. }
  match goal with |- context [(if ?b then ?x else ?y) ?w1] =>
    destruct (Htotal w1) as ([] & w' & Hrun)
  end.
  rewrite Hrun. intros [= <- <-]. split; [split; [by exists userId, d|done]|].
  intros _ t Ht Hid.
  destruct (truthy (Task.sprintId taskToDelete)) eqn:Hsprint.
  - match type of Hrun with _ ?w1 = _ =>
      pose proof (fetchTasksBySprint_origin (Some userId) gateway clock snap
                    (Task.sprintId taskToDelete) true w1 t) as Horigin
    end.
    rewrite Hrun in Horigin. destruct (Horigin Ht) as [Hold|(rows & Hrows & Hin)].
    + cbn in Hold. by apply list_elem_of_filter in Hold as [Hne _].
    + apply list_elem_of_fmap in Hin as (r & -> & Hr). by exists rows, r.
  - destruct (truthyOpt (Task.projectId taskToDelete)) eqn:Hproject.
    + match type of Hrun with _ ?w1 = _ =>
        pose proof (fetchBacklogTasks_origin (Some userId) gateway clock snap
                      (default "" (Task.projectId taskToDelete)) true w1 t) as Horigin
      end.
      rewrite Hrun in Horigin. destruct (Horigin Ht) as [Hold|(rows & Hrows & Hin)].
      * cbn in Hold. by apply list_elem_of_filter in Hold as [Hne _].
      * apply list_elem_of_fmap in Hin as (r & -> & Hr). by exists rows, r.
    + injection Hrun as <-. cbn in Ht. by apply list_elem_of_filter in Ht as [Hne _].
Qed.

(** X27. Signing out empties the projects, the sprints, the tasks and the
    burndown series, and leaves the record of fetch times and errors as it
    was; it is the emptiness of the cache that makes every fetch of a
    later render read from the remote store again, however recent the
    recorded fetch. *)
Theorem sign_out_forces_refetch (st : Store) (now : Z) :
  cachedData (resetOnSignOut st) = ([], [], [], ∅)
  ∧ lastFetchTime (resetOnSignOut st) = lastFetchTime st
  ∧ fetchErrors (resetOnSignOut st) = fetchErrors st
  ∧ fetchProjects_cached (resetOnSignOut st) now = false
  ∧ fetchCollaborativeProjects_cached (resetOnSignOut st) now = false
  ∧ (∀ projectId forceRefresh,
       fetchSprints_cached (resetOnSignOut st) now projectId forceRefresh = false
       ∧ fetchBacklogTasks_cached (resetOnSignOut st) now projectId forceRefresh = false)
  ∧ (∀ sprintId forceRefresh,
       fetchTasksBySprint_cached (resetOnSignOut st) now sprintId forceRefresh = false)
  ∧ (∀ today projectId,
       getBurndownData (burndownData (resetOnSignOut st)) today projectId
       = generateDefaultBurndownData today).
Proof.
  unfold fetchProjects_cached, fetchCollaborativeProjects_cached, fetchSprints_cached,
    fetchBacklogTasks_cached, fetchTasksBySprint_cached, usesCache.
  cbn [resetOnSignOut projects sprints tasks setBurndownData setTasks setSprints
       setProjects].
  repeat split; intros;
    rewrite ?bool_decide_eq_false_2 by (by intros ?%Exists_nil);
    rewrite ?andb_false_r; try reflexivity.
Qed.

(** *** The statements above on the sample store *)

(** Witness of X9: the board columns of sprint 2 cannot be read. *)
Lemma deleteSprint_fails_cleanly_witness :
  (deleteSprint (Some "u") Sample.sprint2Stuck Sample.clock Sample.store0 "s2"
     Sample.world0).1 = Raised
  ∧ store (deleteSprint (Some "u") Sample.sprint2Stuck Sample.clock Sample.store0 "s2"
             Sample.world0).2 = Sample.store0.
Proof.
  assert ((deleteSprint (Some "u") Sample.sprint2Stuck Sample.clock Sample.store0 "s2"
             Sample.world0).1 = Raised) as Hrun by (vm_compute; reflexivity).
  split; [exact Hrun|].
  exact (proj1 (deleteSprint_fails_cleanly (Some "u") Sample.sprint2Stuck Sample.clock
                  Sample.store0 "s2" Sample.world0 Hrun)).
Defined.

(** Witness of X10: nobody is signed in. *)
Lemma updateTask_fails_cleanly_witness :
  (updateTask None Sample.quiet Sample.clock Sample.store0 "b" Sample.markDone
     Sample.world0).1 = Raised
  ∧ store (updateTask None Sample.quiet Sample.clock Sample.store0 "b" Sample.markDone
             Sample.world0).2 = Sample.store0.
Proof.
  assert ((updateTask None Sample.quiet Sample.clock Sample.store0 "b" Sample.markDone
             Sample.world0).1 = Raised) as Hrun by (vm_compute; reflexivity).
  split; [exact Hrun|].
  exact (updateTask_fails_cleanly None Sample.quiet Sample.clock Sample.store0 "b"
           Sample.markDone Sample.world0 Hrun).
Defined.


(** Witness of X12: task a, done on day 102 and marked done again, keeps
    its date. *)
Lemma updateTask_keeps_what_it_is_not_given_witness :
  Task.completionDate
    (Task.mk "a" "a" None "s1" "done" None (Some 5%Q) None ""
             "2024-01-05T09:00:00.000Z" (Some "alpha") (Some 102%Z))
  = Task.completionDate Sample.taskA.
Proof.
  apply (updateTask_keeps_what_it_is_not_given (Some "u") Sample.quiet Sample.clock
           Sample.store0 "a" Sample.markDone Sample.world0 Sample.taskA).
  - reflexivity.
  - vm_compute; reflexivity.
  - reflexivity.
  - by eexists.
Defined.

(** Witness of X13: the read of sprint 1 returns task a alone. *)
Lemma fetchTasksBySprint_replaces_sprint_scope_witness :
  ∃ w', fetchTasksBySprint (Some "u") Sample2.withTaskA Sample.clock Sample.store0
          "s1" false Sample.world0 = (Returned tt, w')
    ∧ tasks (store w') = [formatSprintTask Sample2.taskARow].
Proof.
  destruct (fetchTasksBySprint_replaces_sprint_scope (Some "u") Sample2.withTaskA
              Sample.clock Sample.store0 Sample.world0 "s1" false "u"
              [Sample2.taskARow])
    as (w' & Hrun & Htasks & _).
  - reflexivity.
  - vm_compute; reflexivity.
  - reflexivity.
  - exists w'. split; [exact Hrun|]. rewrite Htasks. vm_compute; reflexivity.
Defined.

(** Witness of X14: the backlog read of "alpha" returns a row that names sprint 1. *)
Lemma fetchBacklogTasks_replaces_backlog_scope_witness :
  ∃ w', fetchBacklogTasks (Some "u") Sample2.populated Sample.clock Sample.store0
          "alpha" false Sample.world0 = (Returned tt, w')
    ∧ tasks (store w')
      = [Sample.taskA; Sample.taskB; formatBacklogTask Sample2.backlogRow]
    ∧ getBacklogTasks (tasks (store w')) "alpha"
      = [formatBacklogTask Sample2.backlogRow].
Proof.
  destruct (fetchBacklogTasks_replaces_backlog_scope (Some "u") Sample2.populated
              Sample.clock Sample.store0 Sample.world0 "alpha" false "u"
              [Sample2.backlogRow])
    as (w' & Hrun & Htasks & _ & _ & Hscope).
  - reflexivity.
  - vm_compute; reflexivity.
  - reflexivity.
  - exists w'. split; [exact Hrun|]. split.
    + rewrite Htasks. vm_compute; reflexivity.
    + apply Hscope. by repeat constructor.
Defined.

(** Witness of X15: the shared project is gone from the list. *)
Lemma fetchProjects_replaces_project_list_witness :
  ∃ w', fetchProjects (Some "u") Sample2.populated Sample.clock Sample.store0
          Sample.world0 = (Returned tt, w')
    ∧ projects (store w') = [formatProject false None Sample2.projectRow]
    ∧ isLoading (store w') = false.
Proof.
  destruct (fetchProjects_replaces_project_list (Some "u") Sample2.populated
              Sample.clock Sample.store0 Sample.world0 "u" [Sample2.projectRow])
    as (w' & Hrun & Hprojects & _ & Hloading).
  - reflexivity.
  - reflexivity.
  - vm_compute; reflexivity.
  - reflexivity.
  - by exists w'.
Defined.

(** Witness of X16: of two collaborations, one carries its project. *)
Lemma fetchCollaborativeProjects_replaces_collaborations_witness :
  ∃ w', fetchCollaborativeProjects (Some "u") Sample2.populated Sample.clock
          Sample.store0 Sample.world0 = (Returned tt, w')
    ∧ projects (store w')
      = [Sample.projectAlpha;
         formatProject true (Some "team_member") Sample2.sharedRow].
Proof.
  destruct (fetchCollaborativeProjects_replaces_collaborations (Some "u")
              Sample2.populated Sample.clock Sample.store0 Sample.world0 "u"
              (CollaboratorRow.mk (Some "team_member") (Some Sample2.sharedRow))
              [CollaboratorRow.mk (Some "team_member") None])
    as (w' & Hrun & Hprojects & _).
  - reflexivity.
  - reflexivity.
  - vm_compute; reflexivity.
  - reflexivity.
  - exists w'. split; [exact Hrun|]. rewrite Hprojects. vm_compute; reflexivity.
Defined.

(** Witness of X17: every read is rejected, and success is reported. *)
Lemma refreshProjectData_always_reports_success_witness :
  ∃ w', refreshProjectData (Some "u") Sample.offline Sample.clock Sample.store0 None
          Sample.world0 = (Returned tt, w')
    ∧ last (toasts w') = Some (ToastSuccess "All data refreshed successfully").
Proof.
  apply (refreshProjectData_always_reports_success (Some "u") Sample.offline
           Sample.clock Sample.store0 None Sample.world0).
  by eexists.
Defined.

(** Witness of X18: projects and collaborations were fetched at the time of the
    call. *)
Lemma refresh_of_all_reads_nothing_while_fresh_witness :
  refreshProjectData (Some "u") Sample2.populated Sample.clock Sample2.freshStore None
    Sample.world0
  = (Returned tt,
     mkWorld (setLastFetchTime (λ _, ∅) Sample.store0) 0
             [ToastSuccess "All data refreshed successfully"] false).
Proof.
  apply (refresh_of_all_reads_nothing_while_fresh (Some "u") Sample2.populated
           Sample.clock Sample2.freshStore Sample.world0).
  - by eexists.
  - right. split; vm_compute; reflexivity.
Defined.

(** Witness of X19: one minute after the reply the sprint is still served from the
    cache. *)
Lemma fetched_sprint_is_cached_while_fresh_and_nonempty_witness :
  fetchTasksBySprint_cached
    (store (fetchTasksBySprint (Some "u") Sample2.withTaskA Sample.clock Sample.store0
              "s1" false Sample.world0).2)
    1700000060001 "s1" false = true.
Proof.
  apply (fetched_sprint_is_cached_while_fresh_and_nonempty (Some "u") Sample2.withTaskA
           Sample.clock Sample.store0 Sample.world0 "s1" false "u"
           [Sample2.taskARow] 1700000060001).
  - reflexivity.
  - vm_compute; reflexivity.
  - reflexivity.
  - split; [vm_compute; discriminate|]. left. reflexivity.
Defined.


(** Witness of X23: the insert resolves to task c. *)
Lemma addTask_returns_inserted_row_witness :
  ∃ userId projectId row,
    Some "u" = Some userId
    ∧ Task.projectId Sample.taskB = Some projectId ∧ projectId ≠ ""
    ∧ insert_task Sample2.writes (tick Sample.world0)
        (TaskInsert.mk (Task.title Sample.taskB) (Task.description Sample.taskB)
           (Task.status Sample.taskB) (Task.assignedTo Sample.taskB)
           (Task.storyPoints Sample.taskB) (Task.priority Sample.taskB)
           (if bool_decide (Task.status Sample.taskB = "backlog")
            then None else Some (Task.sprintId Sample.taskB))
           projectId userId)
      = Resolves false (Some row)
    ∧ formatSprintTask Sample2.taskCRow = formatSprintTask row
    ∧ Task.updatedAt (formatSprintTask Sample2.taskCRow) = TaskRow.created_at row
    ∧ Task.sprintId (formatSprintTask Sample2.taskCRow)
      = default "" (TaskRow.sprint_id row).
Proof.
  apply (addTask_returns_inserted_row (Some "u") Sample.quiet Sample2.writes
           Sample.clock Sample.store0 Sample.taskB Sample.world0
           (formatSprintTask Sample2.taskCRow)).
  vm_compute; reflexivity.
Defined.

(** Witness of X24: sprint 1 renamed. *)
Lemma updateSprint_then_getSprint_witness :
  getSprint
    (sprints (store (updateSprint (Some "u") Sample.quiet Sample2.writes Sample.clock
                       Sample.store0 "s1" Sample2.rename Sample.world0).2)) "s1"
  = Some (Sprint.mk "s1" "Renamed" "" "alpha" 100 106 "in-progress").
Proof.
  destruct (updateSprint_then_getSprint (Some "u") Sample.quiet Sample2.writes
              Sample.clock Sample.store0 "s1" Sample2.rename Sample.world0
              Sample.sprint1 (Sprint.mk "s1" "Renamed" "" "alpha" 100 106 "in-progress"))
    as (_ & _ & Hquiet & _).
  - reflexivity.
  - vm_compute; reflexivity.
  - apply Hquiet; [reflexivity|].
    exists Sample.sprint1. split; [left|reflexivity].
Defined.

(** Witness of X25: the insert resolves to sprint 3. *)
Lemma addSprint_returns_inserted_row_and_refreshes_witness :
  ∃ w',
    addSprint (Some "u") Sample.quiet Sample2.writes Sample.clock Sample.store0
      Sample.sprint2 Sample.world0
    = (Returned (formatSprint Sample2.sprint3Row), w')
    ∧ last (toasts w') = Some (ToastSuccess "Project data refreshed successfully").
Proof.
  apply (addSprint_returns_inserted_row_and_refreshes (Some "u") Sample.quiet
           Sample2.writes Sample.clock Sample.store0 Sample.sprint2 Sample.world0 "u"
           Sample2.sprint3Row); reflexivity.
Defined.

(** Witness of X26: task a is deleted, and the read of sprint 1 that follows brings
    it back. *)
Lemma deleted_task_returns_only_from_the_remote_witness :
  formatSprintTask Sample2.taskARow
    ∈ tasks (store (deleteTask (Some "u") Sample2.withTaskA Sample2.writes Sample.clock
                      Sample.store0 "a" Sample.world0).2)
  ∧ ∃ rows r, r ∈ rows ∧ TaskRow.id r = "a"
      ∧ select_tasks_by_sprint Sample2.withTaskA 1 "s1" = Resolves false (Some rows).
Proof.
  assert (formatSprintTask Sample2.taskARow
            ∈ tasks (store (deleteTask (Some "u") Sample2.withTaskA Sample2.writes
                              Sample.clock Sample.store0 "a" Sample.world0).2)) as Hin.
  { vm_compute. left. }
  split; [exact Hin|].
  destruct (deleted_task_returns_only_from_the_remote (Some "u") Sample2.withTaskA
              Sample2.writes Sample.clock Sample.store0 "a" Sample.world0 Sample.taskA)
    as (_ & _ & Hback); [reflexivity|].
  apply (Hback ltac:(vm_compute; reflexivity) _ Hin). reflexivity.
Defined.
End StoreMore.
